(** * CodeCombine: a shallow embedding of [codecombine/combine.py]

    The program walks a directory tree, keeps in every folder the files
    whose name ends with one of the configured extensions, and writes one
    text artifact per folder.  The embedding follows the Python source
    function by function:

    - Python [str] values are [string]s, one [ascii] per character;
    - the builtins the source relies on ([in], [str.endswith],
      [str.replace], [os.path.basename], [os.path.join]) are small
      executable functions, each with its characterisation;
    - printing, [os.makedirs] and the writes to an artifact are events of
      a trace; exceptions are an outcome next to the trace, so that
      [try]/[except] and [with] read as in the source;
    - [os.walk] is the top-down sequence of folder visits, pruned in
      place by the loop body;
    - the world is what the run sees of the file system: the tree as the
      walk lists it and, for every path, what reading it as UTF-8 text
      gives, the decoded text or an exception; [text_mode_read] tells
      what a read in text mode makes of the characters a file holds;
    - [str.isalnum] is a parameter of the program: its table is
      Python's, and every result below holds for any such table. *)

From Stdlib Require Import Ascii.
From stdpp Require Import base decidable option list strings gmap pretty.

(** ** Python string builtins *)

Module PyStr.

(** [s.startswith(t)] *)
Fixpoint startswith (s t : string) {struct t} : bool :=
  match t, s with
  | "", _ => true
  | String _ _, "" => false
  | String b t', String a s' => if decide (a = b) then startswith s' t' else false
  end.

(** [t in s]: [t] occurs in [s] as a contiguous run of characters. *)
Fixpoint contains (s t : string) : bool :=
  startswith s t ||
  match s with
  | "" => false
  | String _ s' => contains s' t
  end.

(** [s.endswith(t)] *)
Fixpoint endswith (s t : string) : bool :=
  bool_decide (s = t) ||
  match s with
  | "" => false
  | String _ s' => endswith s' t
  end.

(** Character-wise image of a string. *)
Fixpoint map (f : ascii → ascii) (s : string) : string :=
  match s with
  | "" => ""
  | String c s' => String (f c) (map f s')
  end.

(** [s.replace(old, new)] for one-character [old] and [new]. *)
Definition replace (old new : ascii) (s : string) : string :=
  map (λ c, if decide (c = old) then new else c) s.

(** [c in s] for a character. *)
Fixpoint has_char (c : ascii) (s : string) : bool :=
  match s with
  | "" => false
  | String a s' => bool_decide (a = c) || has_char c s'
  end.

(** [sep.join(parts)] *)
Fixpoint join (sep : string) (parts : list string) : string :=
  match parts with
  | [] => ""
  | [p] => p
  | p :: ps => p +:+ sep +:+ join sep ps
  end.

(** Propositional readings. *)
Definition prefix_of (t s : string) : Prop := ∃ post, s = t +:+ post.
Definition suffix_of (t s : string) : Prop := ∃ pre, s = pre +:+ t.
Definition substring_of (t s : string) : Prop :=
  ∃ pre post, s = pre +:+ t +:+ post.

End PyStr.

(** ** [os.path] on POSIX *)

Module PosixPath.

(** [os.path.sep] *)
Definition sep : ascii := "/"%char.

(** [os.path.basename(p)]: [p[p.rfind('/') + 1:]], the text after the last
    separator. *)
Fixpoint basename (p : string) : string :=
  match p with
  | "" => ""
  | String c p' =>
      if PyStr.has_char sep p' then basename p'
      else if decide (c = sep) then p' else p
  end.

(** [os.path.join(a, b)] for two arguments. *)
Definition join (a b : string) : string :=
  if PyStr.startswith b "/" then b
  else if bool_decide (a = "") || PyStr.endswith a "/" then a +:+ b
  else a +:+ "/" +:+ b.

(** [os.path.relpath(path, root)] for a [path] that [os.walk(root)] has
    built: the names below the root, joined by the separator, and the
    current-directory marker for the root itself. *)
Definition relpath (names : list string) : string :=
  match names with
  | [] => "."
  | _ => PyStr.join "/" names
  end.

End PosixPath.

(** ** The world the program runs in *)

(** A folder as [os.walk] lists it: the names of its files and its
    sub-folders, in listing order. *)
#[warnings="-register-all"]
Inductive dir : Type :=
| Dir (files : list string) (subdirs : list (string * dir)).

Definition dir_files (d : dir) : list string :=
  match d with Dir files _ => files end.

Definition dir_subdirs (d : dir) : list (string * dir) :=
  match d with Dir _ subs => subs end.

(** What [root_folder] names. *)
Inductive node : Type :=
| Missing
| NotADirectory
| Directory (d : dir).

(** The exceptions a read can raise: the one the source catches and any
    other. *)
Inductive exn : Type :=
| UnicodeDecodeError
| OSError.

Global Instance exn_eq_dec : EqDecision exn.
Proof. solve_decision. Defined.

Inductive outcome (A : Type) : Type :=
| Done (a : A)
| Raised (e : exn).
Arguments Done {A} a.
Arguments Raised {A} e.

(** [read_text p] is what [open(p, 'r', encoding='utf-8').read()] gives:
    the decoded text, or an exception. *)
Record world : Type := World {
  root_node : node;
  output_exists : bool;
  read_text : string → outcome string;
  abspath : string → string
}.

(** ** Effects: a trace of events and an outcome *)

Inductive event : Type :=
| Print (line : string)
| Makedirs (path : string)
| Open (path : string)
| Write (path : string) (data : string)
| Close (path : string).

Global Instance event_eq_dec : EqDecision event.
Proof. solve_decision. Defined.

Definition io (A : Type) : Type := (list event * outcome A)%type.

Global Instance io_ret : MRet io := λ A a, ([], Done a).

Global Instance io_bind : MBind io := λ A B f m,
  match m with
  | (t, Done a) => let '(t', r) := f a in (t ++ t', r)
  | (t, Raised e) => (t, Raised e)
  end.

Definition emit (e : event) : io unit := ([e], Done tt).

(** [print(line)] *)
Definition print (line : string) : io unit := emit (Print line).

(** [outfile.write(data)] on the artifact opened at [path]. *)
Definition write (path data : string) : io unit := emit (Write path data).

(** [with open(path, 'w', encoding='utf-8') as outfile: body]: the file is
    created or truncated, and closed on every way out of [body]. *)
Definition with_open {A} (path : string) (body : io A) : io A :=
  let '(t, r) := body in (Open path :: t ++ [Close path], r).

(** [try: m except e: handler] *)
Definition try_except {A} (m : io A) (e : exn) (handler : io A) : io A :=
  match m with
  | (t, Raised e') =>
      if decide (e' = e) then let '(t', r) := handler in (t ++ t', r) else m
  | _ => m
  end.

(** [for x in l: body x] *)
Fixpoint for_each {A} (l : list A) (body : A → io unit) : io unit :=
  match l with
  | [] => mret tt
  | x :: l' => body x ;; for_each l' body
  end.

(** The line feed of the source's ['\n']. *)
Definition LF : string := String "010"%char "".

(** The artifacts a trace leaves behind: opening truncates, writing
    appends. *)
Definition apply_event (m : gmap string string) (e : event) : gmap string string :=
  match e with
  | Open p => <[p := ""]> m
  | Write p data => <[p := default "" (m !! p) +:+ data]> m
  | _ => m
  end.

Definition artifacts (t : list event) : gmap string string :=
  foldl apply_event ∅ t.

(** The data written to [path] in a trace, in order. *)
Fixpoint written (path : string) (t : list event) : string :=
  match t with
  | [] => ""
  | Write p data :: t' =>
      if decide (p = path) then data +:+ written path t' else written path t'
  | _ :: t' => written path t'
  end.


(** An event of the body of a [with]: a write to [out], or a line
    printed. *)
Definition writes_to (out : string) (e : event) : Prop :=
  match e with
  | Write p _ => p = out
  | Print _ => True
  | _ => False
  end.

(** An event that is not the report of a missing root. *)
Definition not_error (e : event) : Prop :=
  match e with
  | Print line => PyStr.startswith line "Error" = false
  | _ => True
  end.

(** ** [os.walk] *)

(** One [(current_folder, dirnames, filenames)] triple of [os.walk],
    with the names that lead from the root to the folder. *)
Record visit : Type := Visit {
  current_folder : string;
  relative : list string;
  dirnames : list string;
  filenames : list string
}.

(** [os.walk(top)], top-down.  The loop body may prune [dirnames] in
    place before the walk descends; [prune] is that assignment, and the
    walk enters, in listing order, the sub-folders whose name is left, as
    [os.path.join(top, name)]. *)
Fixpoint os_walk (prune : list string → list string)
    (top : string) (rel : list string) (d : dir) : list visit :=
  match d with
  | Dir files subs =>
      Visit top rel subs.*1 files ::
      flat_map (λ sub : string * dir,
        if bool_decide (sub.1 ∈ prune subs.*1)
        then os_walk prune (PosixPath.join top sub.1) (rel ++ [sub.1]) sub.2
        else []) subs
  end.

(** The folders of a tree, by the names that lead to them. *)
Inductive in_tree : dir → list string → dir → Prop :=
| in_tree_here d : in_tree d [] d
| in_tree_sub files subs n sd p d' :
    (n, sd) ∈ subs → in_tree sd p d' → in_tree (Dir files subs) (n :: p) d'.

(** Names a directory entry can have: not empty, not [.] or [..], and
    without a separator. *)
Definition valid_name (n : string) : bool :=
  negb (bool_decide (n = "")) && negb (bool_decide (n = ".")) &&
  negb (bool_decide (n = "..")) && negb (PyStr.has_char PosixPath.sep n).

Fixpoint valid_tree (d : dir) : bool :=
  match d with
  | Dir files subs =>
      forallb valid_name files &&
      forallb (λ sub : string * dir, valid_name sub.1 && valid_tree sub.2) subs
  end.

(** ** The program *)

(** [str.isalnum] on the ASCII range; the examples below run with it. *)
Definition ascii_isalnum (c : ascii) : bool :=
  let n := nat_of_ascii c in
  bool_decide (48 ≤ n ≤ 57) || bool_decide (65 ≤ n ≤ 90) ||
  bool_decide (97 ≤ n ≤ 122).

(** A command line [argparse] accepts: for every flag, the values given,
    or [None] when the flag does not occur.  [--root] and [--output] take
    one value; [--types] is declared with [nargs="+"] and takes one value
    at least, the first and the others; [--ignore] is declared with
    [nargs="*"] and takes any number, none included.  On any other
    command line [parse_args] leaves the program with status 2 before
    [main] prints anything: such a command line is no [cmdline]. *)
Record cmdline : Type := Cmdline {
  opt_root : option string;
  opt_output : option string;
  opt_types : option (string * list string);
  opt_ignore : option (list string)
}.

(** The namespace [parser.parse_args()] returns, with the [default=] of
    each [add_argument]. *)
Record namespace : Type := Namespace {
  args_root : string;
  args_output : string;
  args_types : list string;
  args_ignore : option (list string)
}.

Definition parse_args (c : cmdline) : namespace :=
  {| args_root := default "." (opt_root c);
     args_output := default "output" (opt_output c);
     args_types :=
       match opt_types c with
       | Some (t, ts) => t :: ts
       | None => [".jsx"; ".js"; ".scss"; ".html"]
       end;
     args_ignore := opt_ignore c |}.

Section Program.

(** [str.isalnum] for one character; Python reads it off the Unicode
    tables, which are no part of this repository. *)
Variable isalnum : ascii → bool.

(** [sanitize_filename] *)
Definition sanitize_filename (filename : string) : string :=
  PyStr.map (λ c,
    if isalnum c || bool_decide (c = "-"%char) || bool_decide (c = "_"%char)
    then c else "_"%char) filename.

(** [should_ignore_folder] *)
Definition should_ignore_folder (folder_name : string)
    (ignore_list : list string) : bool :=
  existsb (λ ignore_name, PyStr.contains folder_name ignore_name) ignore_list.

Section Run.

Variable w : world.
Variables root_folder output_folder : string.
Variables file_types ignore_folders : list string.

(** [dirnames[:] = [d for d in dirnames if not should_ignore_folder(...)]] *)
Definition prune (dirnames : list string) : list string :=
  List.filter (λ d, negb (should_ignore_folder d ignore_folders)) dirnames.

(** [[f for f in filenames if any(f.endswith(ext) for ext in file_types)]] *)
Definition matching_files (filenames : list string) : list string :=
  List.filter (λ f, existsb (λ ext, PyStr.endswith f ext) file_types) filenames.

Definition output_filename (relative_path : string) : string :=
  if bool_decide (relative_path = ".")
  then PosixPath.basename root_folder
  else PosixPath.basename root_folder +:+ "_" +:+
       sanitize_filename (PyStr.replace PosixPath.sep "_"%char relative_path).

Definition output_file_path (relative_path : string) : string :=
  PosixPath.join output_folder (output_filename relative_path +:+ ".txt").

Definition file_relative_path (v : visit) (filename : string) : string :=
  PosixPath.relpath (relative v ++ [filename]).

Definition separator (v : visit) (filename : string) : string :=
  "# ===== " +:+ file_relative_path v filename +:+ " =====".

Definition placeholder (v : visit) (filename : string) : string :=
  "# Warning: Content of '" +:+ file_relative_path v filename +:+
  "' could not be included due to encoding issues." +:+ LF.

(** The body of [for filename in matching_files]. *)
Definition copy_file (out : string) (v : visit) (filename : string) : io unit :=
  let file_path := PosixPath.join (current_folder v) filename in
  write out (separator v filename +:+ LF +:+ LF) ;;
  try_except
    (text ← ([], read_text w file_path); write out text)
    UnicodeDecodeError
    (print ("Warning: Unable to read '" +:+ file_path +:+
            "'. It may not be a text file or may use a different encoding.") ;;
     write out (placeholder v filename)) ;;
  write out (LF +:+ LF).

(** The body of [for current_folder, dirnames, filenames in os.walk(...)],
    after the pruning of [dirnames]. *)
Definition loop_body (v : visit) : io unit :=
  if should_ignore_folder (PosixPath.basename (current_folder v)) ignore_folders
  then mret tt
  else
    let matching := matching_files (filenames v) in
    if bool_decide (matching = []) then mret tt
    else
      let relative_path := PosixPath.relpath (relative v) in
      let out := output_file_path relative_path in
      with_open out (for_each matching (copy_file out v)) ;;
      print ("Combined " +:+ pretty (length matching) +:+ " file(s) for '" +:+
             relative_path +:+ "' into '" +:+ out +:+ "'.").

(** The entry of one file as the specification words it: the header
    line and a blank line, the content of the file or else the
    placeholder line, and two line feeds. *)
Definition spec_entry (v : visit) (filename : string) : string :=
  "# ===== " +:+ file_relative_path v filename +:+ " =====" +:+ LF +:+ LF +:+
  match read_text w (PosixPath.join (current_folder v) filename) with
  | Done text => text
  | Raised _ => placeholder v filename
  end +:+ LF +:+ LF.

(** The artifact of a folder as the specification words it: the entries
    of its matching files, in listing order. *)
Definition spec_artifact (v : visit) : string :=
  foldr String.append "" (spec_entry v <$> matching_files (filenames v)).

(** The base name of an artifact as the specification words it, from the
    base name of the root and the names that lead to the folder. *)
Definition spec_output_name (R : string) (names : list string) : string :=
  match names with
  | [] => R
  | _ => R +:+ "_" +:+
         sanitize_filename (PyStr.replace PosixPath.sep "_"%char (PyStr.join "/" names))
  end.

(** The folders [os.walk(root_folder)] yields under the pruning of the
    loop body; nothing when the root is no directory. *)
Definition visits : list visit :=
  match root_node w with
  | Directory d => os_walk prune root_folder [] d
  | _ => []
  end.

(** [combine_files_by_folder] *)
Definition combine_files_by_folder : io unit :=
  match root_node w with
  | Missing =>
      print ("Error: The folder '" +:+ root_folder +:+ "' does not exist.")
  | _ =>
      (if output_exists w then mret tt else emit (Makedirs output_folder)) ;;
      for_each visits loop_body
  end.

End Run.

Definition default_ignore : list string := ["node_modules"; ".git"].

(** The ignore list [main] settles on. *)
Definition effective_ignore (args : namespace) : list string :=
  match args_ignore args with
  | Some l => l
  | None => default_ignore
  end.

(** [main] *)
Definition main (w : world) (c : cmdline) : io unit :=
  let args := parse_args c in
  let root_folder := abspath w (args_root args) in
  let output_folder := abspath w (args_output args) in
  let file_types :=
    if bool_decide (args_types args = [])
    then [".jsx"; ".js"; ".scss"; ".css"; ".html"] else args_types args in
  let ignore_folders := effective_ignore args in
  print "CodeCombine: A Code File Combining Utility" ;;
  print ("Root folder: " +:+ root_folder) ;;
  print ("Output folder: " +:+ output_folder) ;;
  print ("File types: " +:+ PyStr.join ", " file_types) ;;
  print ("Ignored folders: " +:+ PyStr.join ", " ignore_folders) ;;
  combine_files_by_folder w root_folder output_folder file_types ignore_folders.

End Program.

(** A small tree to run the program on. *)
Module Demo.

Definition tree : dir :=
  Dir ["a.js"; "notes.md"]
      [("src", Dir ["b.js"; "c.bin"] [("utils", Dir ["d.js"] [])]);
       ("node_modules", Dir ["x.js"] [("dep", Dir ["y.js"] [])]);
       ("docs", Dir ["readme.md"] [])].

Definition reads (p : string) : outcome string :=
  if bool_decide (p = "/p/proj/a.js") then Done "A"
  else if bool_decide (p = "/p/proj/src/b.js") then Done "B"
  else if bool_decide (p = "/p/proj/src/utils/d.js") then Raised UnicodeDecodeError
  else Done "?".

Definition w : world := World (Directory tree) false reads (λ p, "/p/" +:+ p).

Definition run : io unit :=
  main ascii_isalnum w
    (Cmdline (Some "proj") (Some "out") (Some (".js", [])) None).

(** The visits of the root and of [src/utils]. *)
Definition root_visit : visit :=
  Visit "/p/proj" [] ["src"; "node_modules"; "docs"] ["a.js"; "notes.md"].

Definition utils_visit : visit :=
  Visit "/p/proj/src/utils" ["src"; "utils"] [] ["d.js"].

End Demo.

(** A root whose own name is on the ignore list. *)
Module IgnoredRoot.

Definition tree : dir := Dir ["top.js"] [("src", Dir ["a.js"] [])].

Definition w : world :=
  World (Directory tree) true (λ p, Done ("<" +:+ p +:+ ">")) (λ p, p).

Definition run : io unit :=
  combine_files_by_folder ascii_isalnum w "/p/node_modules" "/out"
    [".js"] default_ignore.

End IgnoredRoot.

(** Two folders whose relative paths sanitize to the same text. *)
Module Collide.

Definition tree : dir :=
  Dir [] [("a", Dir [] [("b", Dir ["x.js"] [])]); ("a_b", Dir ["y.js"] [])].

Definition w : world :=
  World (Directory tree) true (λ p, Done ("<" +:+ p +:+ ">")) (λ p, p).

Definition run : io unit :=
  combine_files_by_folder ascii_isalnum w "/p/proj" "/out" [".js"] default_ignore.



End Collide.

(** A folder in which the second matching file cannot be opened. *)
Module Abort.

Definition tree : dir :=
  Dir ["a.js"; "b.js"; "c.js"] [("src", Dir ["d.js"] [])].

Definition reads (p : string) : outcome string :=
  if bool_decide (p = "/p/proj/b.js") then Raised OSError else Done "text".

Definition w : world := World (Directory tree) true reads (λ p, p).

Definition root_visit : visit :=
  Visit "/p/proj" [] ["src"] ["a.js"; "b.js"; "c.js"].

Definition run : io unit :=
  combine_files_by_folder ascii_isalnum w "/p/proj" "/out" [".js"] default_ignore.

End Abort.

(** ** Reading in text mode *)

(** The carriage return. *)
Definition CR : ascii := "013"%char.

(** What a file opened with [open(p, 'r', encoding='utf-8')], hence with
    [newline=None], does to the decoded characters when it is read: a
    carriage return followed by a line feed becomes one line feed, and
    any other carriage return becomes a line feed. *)
Fixpoint universal_newlines (s : string) : string :=
  match s with
  | "" => ""
  | String c s' =>
      if decide (c = CR) then
        match s' with
        | String d s'' =>
            if decide (d = "010"%char)
            then String "010"%char (universal_newlines s'')
            else String "010"%char (universal_newlines s')
        | "" => String "010"%char ""
        end
      else String c (universal_newlines s')
  end.

(** [read()] on a file whose decoded characters are [content p]; a file
    that cannot be decoded or opened raises as it is. *)
Definition text_mode_read (content : string → outcome string) (p : string) :
    outcome string :=
  match content p with
  | Done s => Done (universal_newlines s)
  | Raised e => Raised e
  end.

(** A folder with a file that cannot be decoded and a file whose lines
    end with a carriage return and a line feed. *)
Module Crlf.

Definition tree : dir := Dir ["bad.js"; "dos.js"] [].

Definition dos_text : string :=
  "a" +:+ String CR LF +:+ "b" +:+ String CR "c" +:+ LF.

Definition content (p : string) : outcome string :=
  if bool_decide (p = "/p/proj/bad.js") then Raised UnicodeDecodeError
  else Done dos_text.

Definition w : world :=
  World (Directory tree) true (text_mode_read content) (λ p, p).

Definition root_visit : visit := Visit "/p/proj" [] [] ["bad.js"; "dos.js"].

Definition run : io unit :=
  combine_files_by_folder ascii_isalnum w "/p/proj" "/out" [".js"] default_ignore.

End Crlf.

(** ** Notions for the further properties *)

(** A character [sanitize_filename] leaves as it is. *)
Definition safe_char (isalnum : ascii → bool) (c : ascii) : bool :=
  isalnum c || bool_decide (c = "-"%char) || bool_decide (c = "_"%char).

(** Every character of a string passes a test. *)
Fixpoint all_chars (test : ascii → bool) (s : string) : bool :=
  match s with
  | "" => true
  | String c s' => test c && all_chars test s'
  end.


(** The path an event opens, writes or closes. *)
Definition event_path (e : event) : option string :=
  match e with
  | Open p | Write p _ | Close p => Some p
  | _ => None
  end.

(** A folder the loop body does not skip: its name passes the ignore
    check and it has a matching file. *)
Definition kept (file_types ignore_folders : list string) (v : visit) : bool :=
  negb (should_ignore_folder (PosixPath.basename (current_folder v))
          ignore_folders) &&
  negb (bool_decide (matching_files file_types (filenames v) = [])).

(** * Facts *)

(** ** Strings *)

Module PyStrFacts.
Import PyStr.

(** [String.append] is [simpl never] under stdpp; these two equations
    are its defining clauses. *)
Lemma app_nil_l (s : string) : "" +:+ s = s.
Proof. reflexivity. Qed.

Lemma app_cons (c : ascii) (s t : string) :
  String c s +:+ t = String c (s +:+ t).
Proof. reflexivity. Qed.

Lemma app_nil_r (s : string) : s +:+ "" = s.
Proof. induction s as [|c s IH]; [done|]. by rewrite app_cons, IH. Qed.

Lemma app_assoc (s t u : string) : (s +:+ t) +:+ u = s +:+ t +:+ u.
Proof.
  induction s as [|c s IH]; [done|]. by rewrite !app_cons, IH.
Qed.

Lemma app_length (s t : string) :
  String.length (s +:+ t) = String.length s + String.length t.
Proof.
  induction s as [|c s IH]; [done|]. rewrite app_cons. simpl. by rewrite IH.
Qed.

Lemma startswith_spec (s t : string) : startswith s t = true ↔ prefix_of t s.
Proof.
  revert s. induction t as [|b t IH]; intros s; simpl.
  - split; [intros _; by exists s|done].
  - destruct s as [|a s].
    + split; [done|]. intros [post H]. by rewrite app_cons in H.
    + case_decide as Hab.
      * subst b. rewrite IH. split; intros [post H]; exists post.
        -- by rewrite app_cons, H.
        -- rewrite app_cons in H. by injection H.
      * split; [done|]. intros [post H]. rewrite app_cons in H.
        injection H as ? ?. done.
Qed.

Lemma contains_spec (s t : string) : contains s t = true ↔ substring_of t s.
Proof.
  induction s as [|a s IH]; simpl.
  - rewrite orb_false_r, startswith_spec. split.
    + intros [post H]. by exists "", post.
    + intros [[|c pre] [post H]]; [by exists post|].
      by rewrite app_cons in H.
  - rewrite orb_true_iff, startswith_spec, IH. split.
    + intros [[post H]|[pre [post H]]].
      * by exists "", post.
      * exists (String a pre), post. by rewrite app_cons, H.
    + intros [[|c pre] [post H]].
      * left. by exists post.
      * right. rewrite app_cons in H. injection H as ? H.
        by exists pre, post.
Qed.

Lemma endswith_spec (s t : string) : endswith s t = true ↔ suffix_of t s.
Proof.
  induction s as [|a s IH]; simpl.
  - rewrite orb_false_r, bool_decide_eq_true. split.
    + intros <-. by exists "".
    + intros [[|c pre] H]; [done|]. by rewrite app_cons in H.
  - rewrite orb_true_iff, bool_decide_eq_true, IH. split.
    + intros [<-|[pre H]]; [by exists ""|].
      exists (String a pre). by rewrite app_cons, H.
    + intros [[|c pre] H]; [by left|].
      right. rewrite app_cons in H. injection H as ? H. by exists pre.
Qed.

Lemma endswith_empty (s : string) : endswith s "" = true.
Proof. apply endswith_spec. exists s. by rewrite app_nil_r. Qed.

Lemma contains_empty (s : string) : contains s "" = true.
Proof. by destruct s. Qed.

Lemma map_length (f : ascii → ascii) (s : string) :
  String.length (map f s) = String.length s.
Proof. induction s as [|c s IH]; simpl; by rewrite ?IH. Qed.

Lemma map_get (f : ascii → ascii) (s : string) (i : nat) :
  String.get i (map f s) = f <$> String.get i s.
Proof.
  revert i. induction s as [|c s IH]; intros [|i]; simpl; try done.
Qed.

Lemma map_app (f : ascii → ascii) (s t : string) :
  map f (s +:+ t) = map f s +:+ map f t.
Proof.
  induction s as [|c s IH]; [done|].
  rewrite !app_cons. simpl. by rewrite app_cons, IH.
Qed.

Lemma has_char_app (c : ascii) (s t : string) :
  has_char c (s +:+ t) = has_char c s || has_char c t.
Proof.
  induction s as [|a s IH]; [done|].
  rewrite app_cons. simpl. by rewrite IH, orb_assoc.
Qed.

Lemma app_inj_r (s1 s2 t : string) : s1 +:+ t = s2 +:+ t → s1 = s2.
Proof.
  revert s2. induction s1 as [|a s1 IH]; intros [|b s2] H; [done|..].
  - apply (f_equal String.length) in H.
    rewrite app_nil_l, app_cons in H. simpl in H. rewrite app_length in H. lia.
  - apply (f_equal String.length) in H.
    rewrite app_nil_l, app_cons in H. simpl in H. rewrite app_length in H. lia.
  - rewrite !app_cons in H. injection H as -> H. f_equal. by apply IH.
Qed.

Lemma has_char_false_startswith (c d : ascii) (s t : string) :
  has_char c s = false → d ≠ c →
  startswith (s +:+ String d t) (String c "") = false.
Proof.
  intros Hs Hd. destruct s as [|a s].
  - rewrite app_nil_l. simpl. by rewrite decide_False.
  - rewrite app_cons. simpl in *. apply orb_false_iff in Hs as [Ha _].
    apply bool_decide_eq_false in Ha. by rewrite decide_False.
Qed.

End PyStrFacts.

(** ** Paths *)

Module PosixPathFacts.
Import PyStr PyStrFacts PosixPath.

Lemma basename_no_sep (p : string) : has_char sep (basename p) = false.
Proof.
  induction p as [|c p IH]; [done|]. simpl.
  destruct (has_char sep p) eqn:Hp; [done|].
  case_decide; [done|]. simpl. rewrite Hp. by rewrite bool_decide_eq_false_2.
Qed.

Lemma basename_id (n : string) : has_char sep n = false → basename n = n.
Proof.
  destruct n as [|c n]; [done|]. simpl. intros [Hc Hn]%orb_false_iff.
  rewrite Hn. apply bool_decide_eq_false in Hc. by rewrite decide_False.
Qed.

Lemma basename_app_sep (a n : string) :
  has_char sep n = false → basename (a +:+ "/" +:+ n) = n.
Proof.
  intros Hn. induction a as [|c a IH].
  - rewrite app_nil_l. change ("/" +:+ n) with (String sep n). simpl.
    by rewrite Hn.
  - rewrite app_cons. simpl. rewrite has_char_app.
    change ("/" +:+ n) with (String sep n). simpl.
    by rewrite orb_true_r.
Qed.

(** Joining onto a relative name only prepends. *)
Lemma join_relative (a b : string) :
  startswith b "/" = false → ∃ pre, ∀ b', startswith b' "/" = false →
    join a b' = pre +:+ b'.
Proof.
  intros _. unfold join.
  destruct (bool_decide (a = "") || endswith a "/") eqn:Ha.
  - exists a. intros b' ->. done.
  - exists (a +:+ "/"). intros b' ->. by rewrite app_assoc.
Qed.

Lemma join_inj (a b1 b2 : string) :
  startswith b1 "/" = false → startswith b2 "/" = false →
  join a b1 = join a b2 → b1 = b2.
Proof.
  intros H1 H2. destruct (join_relative a b1 H1) as [pre Hpre].
  rewrite (Hpre b1 H1), (Hpre b2 H2). apply String.app_inj.
Qed.

Lemma basename_join (top n : string) :
  valid_name n = true → basename (join top n) = n.
Proof.
  unfold valid_name. rewrite !andb_true_iff, !negb_true_iff.
  intros [[[Hne _] _] Hsep].
  assert (startswith n "/" = false) as Hst.
  { destruct n as [|c n]; [done|]. simpl in *.
    apply orb_false_iff in Hsep as [Hc _]. apply bool_decide_eq_false in Hc.
    by rewrite decide_False. }
  unfold join. rewrite Hst.
  destruct (bool_decide (top = "")) eqn:Htop; simpl.
  { apply bool_decide_eq_true in Htop as ->. rewrite app_nil_l.
    by apply basename_id. }
  destruct (endswith top "/") eqn:Hend.
  - apply endswith_spec in Hend as [pre ->].
    rewrite app_assoc. by apply basename_app_sep.
  - by apply basename_app_sep.
Qed.

End PosixPathFacts.


(** ** Effects *)

Module IoFacts.

Lemma bind_done {A B} (t : list event) (a : A) (f : A → io B) :
  (t, Done a) ≫= f = (t ++ (f a).1, (f a).2).
Proof. unfold mbind, io_bind. by destruct (f a). Qed.

Lemma bind_raised {A B} (t : list event) (e : exn) (f : A → io B) :
  (t, Raised e) ≫= f = (t, Raised e).
Proof. done. Qed.

Lemma bind_trace {A B} (m : io A) (f : A → io B) :
  ∃ t, (m ≫= f).1 = m.1 ++ t ∧
    match m.2 with
    | Done a => t = (f a).1 ∧ (m ≫= f).2 = (f a).2
    | Raised e => t = [] ∧ (m ≫= f).2 = Raised e
    end.
Proof.
  destruct m as [t [a|e]].
  - rewrite bind_done. by exists (f a).1.
  - exists []. simpl. by rewrite app_nil_r.
Qed.

(** A loop whose body never raises runs to the end. *)
Lemma for_each_done {A} (l : list A) (body : A → io unit) :
  (∀ x, x ∈ l → (body x).2 = Done tt) →
  for_each l body = (flat_map (λ x, (body x).1) l, Done tt).
Proof.
  induction l as [|x l IH]; intros H; [done|]. simpl.
  destruct (body x) as [t r] eqn:Hx.
  assert (r = Done tt) as -> by (specialize (H x); rewrite Hx in H; apply H; left).
  rewrite bind_done, IH; [done|]. intros y Hy. apply H. by right.
Qed.

(** In any case the trace of a loop is made of the traces of its body. *)
Lemma for_each_Forall {A} (P : event → Prop) (l : list A) (body : A → io unit) :
  (∀ x, x ∈ l → Forall P (body x).1) → Forall P (for_each l body).1.
Proof.
  induction l as [|x l IH]; intros H; [by constructor|]. simpl.
  destruct (bind_trace (body x) (λ _, for_each l body)) as (t & -> & Ht).
  apply Forall_app. split; [apply H; left|].
  destruct (body x).2; destruct Ht as [-> _]; [|by constructor].
  apply IH. intros y Hy. apply H. by right.
Qed.

Lemma for_each_elem {A} (e : event) (l : list A) (body : A → io unit) :
  e ∈ (for_each l body).1 → ∃ x, x ∈ l ∧ e ∈ (body x).1.
Proof.
  induction l as [|x l IH]; simpl; [by intros ?%elem_of_nil|].
  destruct (bind_trace (body x) (λ _, for_each l body)) as (t & -> & Ht).
  intros [He|He]%elem_of_app.
  - exists x. split; [left|done].
  - destruct (body x).2; destruct Ht as [-> _];
      [|by apply elem_of_nil in He].
    destruct (IH He) as (y & Hy & Hey). exists y. split; [by right|done].
Qed.

Lemma written_app (path : string) (t1 t2 : list event) :
  written path (t1 ++ t2) = written path t1 +:+ written path t2.
Proof.
  induction t1 as [|[| |? |p data|] t1 IH]; simpl; try done.
  case_decide; [|done]. by rewrite IH, PyStrFacts.app_assoc.
Qed.



Lemma artifacts_writes (out : string) (m : gmap string string)
    (t : list event) (have : string) :
  Forall (writes_to out) t → m !! out = Some have →
  foldl apply_event m t !! out = Some (have +:+ written out t).
Proof.
  intros Ht. revert m have.
  induction Ht as [|[| |? |p data|] t H _ IH]; intros m have Hm; simpl in *;
    try done.
  - by rewrite PyStrFacts.app_nil_r.
  - by apply IH.
  - subst p. rewrite decide_True by done.
    rewrite <- PyStrFacts.app_assoc. apply IH.
    by rewrite lookup_insert_eq, Hm.
Qed.

End IoFacts.

(** ** The walk *)

Module WalkFacts.

(** Induction on a tree, with the hypothesis for every sub-folder. *)
Lemma dir_induction (P : dir → Prop) :
  (∀ files subs, Forall (λ sub, P sub.2) subs → P (Dir files subs)) →
  ∀ d, P d.
Proof.
  intros H. fix IH 1. intros [files subs]. apply H.
  revert subs. fix IHs 1. intros [|[n sd] subs]; constructor.
  - apply IH.
  - apply IHs.
Qed.

(** Every visit is a folder of the tree, reached by names the pruning
    has left. *)
Lemma os_walk_sound (prune : list string → list string) (d : dir) :
  ∀ top rel v, v ∈ os_walk prune top rel d →
  ∃ p d', relative v = rel ++ p ∧ in_tree d p d' ∧
    filenames v = dir_files d' ∧
    Forall (λ n, ∃ names, n ∈ prune names) p.
Proof.
  induction d as [files subs IH] using dir_induction. intros top rel v Hv.
  simpl in Hv. apply elem_of_cons in Hv as [->|Hv].
  - exists [], (Dir files subs). rewrite app_nil_r.
    repeat split; [constructor|constructor].
  - apply list_elem_of_In, in_flat_map in Hv as ([n sd] & Hsub & Hv).
    apply list_elem_of_In in Hsub, Hv. simpl in Hv.
    case_bool_decide as Hkeep; [|by apply elem_of_nil in Hv].
    rewrite Forall_forall in IH.
    destruct (IH _ Hsub _ _ _ Hv) as (p & d' & Hrel & Htree & Hfiles & Hp).
    exists (n :: p), d'. rewrite Hrel, <- app_assoc. simpl.
    repeat split; [by econstructor|done|]. constructor; eauto.
Qed.

(** Without pruning every folder of the tree is visited. *)
Lemma os_walk_complete (prune : list string → list string) (d : dir)
    (p : list string) (d' : dir) :
  (∀ names, prune names = names) → in_tree d p d' →
  ∀ top rel, ∃ v, v ∈ os_walk prune top rel d ∧
    relative v = rel ++ p ∧ filenames v = dir_files d' ∧
    dirnames v = (dir_subdirs d').*1.
Proof.
  intros Hid. induction 1 as [[files subs]|files subs n sd p d' Hsub _ IH];
    intros top rel.
  - eexists. split; [left|]. simpl. by rewrite app_nil_r.
  - destruct (IH (PosixPath.join top n) (rel ++ [n])) as (v & Hv & Hrel & Hf).
    exists v. split; [|by rewrite Hrel, <- app_assoc].
    simpl. right. apply list_elem_of_In, in_flat_map.
    exists (n, sd). split; [by apply list_elem_of_In|]. simpl.
    rewrite bool_decide_eq_true_2; [by apply list_elem_of_In|].
    rewrite Hid. apply list_elem_of_fmap. by exists (n, sd).
Qed.

Lemma in_tree_valid (d : dir) (p : list string) (d' : dir) :
  in_tree d p d' → valid_tree d = true →
  Forall (λ n, valid_name n = true) p ∧ valid_tree d' = true.
Proof.
  induction 1 as [|files subs n sd p d' Hsub _ IH]; intros Hd; [done|].
  simpl in Hd. apply andb_true_iff in Hd as [_ Hsubs].
  rewrite forallb_forall in Hsubs.
  apply list_elem_of_In, Hsubs, andb_true_iff in Hsub as [Hn Hsd]. simpl in *.
  destruct (IH Hsd). split; [by constructor|done].
Qed.

(** Below the root the base name of a visited folder is its own name,
    the last of the names that lead to it. *)
Lemma os_walk_basename (prune : list string → list string) (d : dir) :
  valid_tree d = true → ∀ top rel v, v ∈ os_walk prune top rel d →
  (current_folder v = top ∧ relative v = rel) ∨
  ∃ n, last (relative v) = Some n ∧
       PosixPath.basename (current_folder v) = n.
Proof.
  induction d as [files subs IH] using dir_induction.
  intros Hvalid top rel v Hv. simpl in Hv, Hvalid.
  apply andb_true_iff in Hvalid as [_ Hsubs]. rewrite forallb_forall in Hsubs.
  apply elem_of_cons in Hv as [->|Hv]; [by left|]. right.
  apply list_elem_of_In, in_flat_map in Hv as ([n sd] & Hsub & Hv).
  pose proof (Hsubs _ Hsub) as [Hn Hsd]%andb_true_iff.
  apply list_elem_of_In in Hsub, Hv. simpl in *.
  case_bool_decide as Hkeep; [|by apply elem_of_nil in Hv].
  rewrite Forall_forall in IH.
  destruct (IH _ Hsub Hsd _ _ _ Hv) as [[Hcur Hrel]|(m & Hm)].
  - exists n. rewrite Hcur, Hrel, last_snoc.
    split; [done|]. by apply PosixPathFacts.basename_join.
  - by exists m.
Qed.

Lemma relpath_valid (p : list string) :
  Forall (λ n, valid_name n = true) p →
  PosixPath.relpath p = "." → p = [].
Proof.
  destruct p as [|n p]; [done|]. intros Hp Heq. exfalso.
  apply Forall_cons in Hp as [Hn _]. unfold valid_name in Hn.
  rewrite !andb_true_iff, !negb_true_iff, !bool_decide_eq_false in Hn.
  destruct Hn as [[[Hne Hdot] _] _].
  destruct p as [|m p]; simpl in Heq; [done|].
  destruct n as [|c n]; [done|].
  rewrite PyStrFacts.app_cons in Heq. injection Heq as _ Heq.
  destruct n; [|by rewrite PyStrFacts.app_cons in Heq].
  by rewrite PyStrFacts.app_nil_l in Heq.
Qed.

End WalkFacts.

(** ** The program *)

Section ProgramFacts.

Variable isalnum : ascii → bool.
Variable w : world.
Variables root_folder output_folder : string.
Variables file_types ignore_folders : list string.

Local Abbreviation out_path := (output_file_path isalnum root_folder output_folder).
Local Abbreviation copy := (copy_file w).
Local Abbreviation body :=
  (loop_body isalnum w root_folder output_folder file_types ignore_folders).
Local Abbreviation run :=
  (combine_files_by_folder isalnum w root_folder output_folder
     file_types ignore_folders).
Local Abbreviation walk := (visits w root_folder ignore_folders).
Local Abbreviation ignored v :=
  (should_ignore_folder (PosixPath.basename (current_folder v)) ignore_folders).
Local Abbreviation matching v := (matching_files file_types (filenames v)).
Local Abbreviation file_path v f := (PosixPath.join (current_folder v) f).

Lemma should_ignore_folder_spec (folder_name : string) (ignore_list : list string) :
  should_ignore_folder folder_name ignore_list = true ↔
  ∃ token, token ∈ ignore_list ∧ PyStr.substring_of token folder_name.
Proof.
  unfold should_ignore_folder. rewrite existsb_exists.
  split; intros (token & Hin & H); exists token.
  - by rewrite list_elem_of_In, <- PyStrFacts.contains_spec.
  - by rewrite <- list_elem_of_In, PyStrFacts.contains_spec.
Qed.

Lemma should_ignore_folder_nil (folder_name : string) :
  should_ignore_folder folder_name [] = false.
Proof. done. Qed.

Lemma prune_elem (names : list string) (n : string) :
  n ∈ prune ignore_folders names →
  should_ignore_folder n ignore_folders = false.
Proof.
  unfold prune. rewrite list_elem_of_In, filter_In, negb_true_iff. by intros [_ ?].
Qed.

Lemma prune_nil (names : list string) : prune [] names = names.
Proof.
  induction names as [|n names IH]; [done|]. unfold prune in *. simpl.
  f_equal. exact IH.
Qed.

Lemma matching_files_elem (names : list string) (f : string) :
  f ∈ matching_files file_types names ↔
  f ∈ names ∧ ∃ ext, ext ∈ file_types ∧ PyStr.suffix_of ext f.
Proof.
  unfold matching_files. rewrite list_elem_of_In, filter_In, existsb_exists.
  rewrite <- list_elem_of_In.
  split; intros (Hf & ext & Hext & H); (split; [done|]); exists ext.
  - by rewrite list_elem_of_In, <- PyStrFacts.endswith_spec.
  - by rewrite <- list_elem_of_In, PyStrFacts.endswith_spec.
Qed.

Lemma matching_files_nonempty (names : list string) :
  matching_files file_types names ≠ [] ↔
  ∃ f ext, f ∈ names ∧ ext ∈ file_types ∧ PyStr.suffix_of ext f.
Proof.
  split.
  - destruct (matching_files file_types names) as [|f l] eqn:Hm; [done|].
    intros _. assert (f ∈ matching_files file_types names) as Hf
      by (rewrite Hm; left).
    apply matching_files_elem in Hf as (? & ext & ? & ?). by exists f, ext.
  - intros (f & ext & Hf & Hext & Hs) Hnil.
    assert (f ∈ matching_files file_types names) as Hin
      by (apply matching_files_elem; eauto).
    rewrite Hnil in Hin. by apply elem_of_nil in Hin.
Qed.

(** What one pass of the inner loop does, by the result of the read. *)
Lemma copy_file_cases (out : string) (v : visit) (f : string) :
  copy out v f =
  match read_text w (file_path v f) with
  | Done text =>
      ([Write out (separator v f +:+ LF +:+ LF); Write out text;
        Write out (LF +:+ LF)], Done tt)
  | Raised UnicodeDecodeError =>
      ([Write out (separator v f +:+ LF +:+ LF);
        Print ("Warning: Unable to read '" +:+ file_path v f +:+
               "'. It may not be a text file or may use a different encoding.");
        Write out (placeholder v f); Write out (LF +:+ LF)], Done tt)
  | Raised OSError => ([Write out (separator v f +:+ LF +:+ LF)], Raised OSError)
  end.
Proof. unfold copy_file. by destruct (read_text w _) as [text|[]]. Qed.

Lemma copy_file_writes (out : string) (v : visit) (f : string) :
  Forall (writes_to out) (copy out v f).1.
Proof.
  rewrite copy_file_cases.
  destruct (read_text w _) as [text|[]]; simpl; repeat constructor.
Qed.

Lemma copy_file_done (out : string) (v : visit) (f : string) :
  read_text w (file_path v f) ≠ Raised OSError → (copy out v f).2 = Done tt.
Proof.
  rewrite copy_file_cases. by destruct (read_text w _) as [text|[]].
Qed.

Lemma copy_file_written (out : string) (v : visit) (f : string) :
  read_text w (file_path v f) ≠ Raised OSError →
  written out (copy out v f).1 = spec_entry w v f.
Proof.
  rewrite copy_file_cases. unfold spec_entry, separator.
  destruct (read_text w _) as [text|[]]; [| |done]; intros _; simpl;
    rewrite !decide_True by done;
    by rewrite !PyStrFacts.app_assoc, ?PyStrFacts.app_nil_r.
Qed.

(** The trace of a folder that is kept: the artifact is opened, the inner
    loop writes to it, it is closed, and the summary is printed when the
    loop has not raised. *)
Lemma loop_body_kept (v : visit) :
  ignored v = false → matching v ≠ [] →
  let out := out_path (PosixPath.relpath (relative v)) in
  ∃ t r, for_each (matching v) (copy out v) = (t, r) ∧
    Forall (writes_to out) t ∧
    body v =
      (Open out :: t ++ Close out ::
         match r with
         | Done _ =>
             [Print ("Combined " +:+ pretty (length (matching v)) +:+
                     " file(s) for '" +:+ PosixPath.relpath (relative v) +:+
                     "' into '" +:+ out +:+ "'.")]
         | Raised _ => []
         end, r).
Proof.
  intros Hign Hm out. unfold loop_body. rewrite Hign.
  rewrite bool_decide_eq_false_2 by done. fold out.
  destruct (for_each (matching v) (copy out v)) as [t r] eqn:Hloop.
  exists t, r. split; [done|]. split.
  - change t with (t, r).1. rewrite <- Hloop.
    apply IoFacts.for_each_Forall. intros f _. apply copy_file_writes.
  - unfold with_open. destruct r as [[]|e]; simpl.
    + by rewrite <- app_assoc.
    + done.
Qed.

Lemma loop_body_skipped (v : visit) :
  ignored v = true ∨ matching v = [] → body v = ([], Done tt).
Proof.
  unfold loop_body. intros [->| ->]; [done|]. by destruct (ignored v).
Qed.

(** A kept folder whose matching files can all be read. *)
Lemma loop_body_readable (v : visit) :
  ignored v = false → matching v ≠ [] →
  (∀ f, f ∈ matching v → read_text w (file_path v f) ≠ Raised OSError) →
  let out := out_path (PosixPath.relpath (relative v)) in
  (body v).2 = Done tt ∧
  (body v).1 =
    Open out :: flat_map (λ f, (copy out v f).1) (matching v) ++
    [Close out;
     Print ("Combined " +:+ pretty (length (matching v)) +:+
            " file(s) for '" +:+ PosixPath.relpath (relative v) +:+
            "' into '" +:+ out +:+ "'.")] ∧
  written out (body v).1 = spec_artifact w file_types v ∧
  artifacts (body v).1 !! out = Some (spec_artifact w file_types v).
Proof.
  intros Hign Hm Hread out.
  destruct (loop_body_kept v Hign Hm) as (t & r & Hloop & Hw & Hbody).
  fold out in Hloop, Hw, Hbody.
  rewrite IoFacts.for_each_done in Hloop
    by (intros f Hf; by apply copy_file_done, Hread).
  injection Hloop as <- <-. rewrite Hbody. simpl.
  assert (written out (flat_map (λ f, (copy out v f).1) (matching v))
          = spec_artifact w file_types v) as Hwr.
  { unfold spec_artifact. clear Hbody Hw Hm.
    induction (matching v) as [|f l IH]; [done|]. simpl.
    rewrite IoFacts.written_app, IH.
    - rewrite copy_file_written; [done|]. apply Hread. left.
    - intros g Hg. apply Hread. by right. }
  repeat split.
  - by rewrite IoFacts.written_app, Hwr, PyStrFacts.app_nil_r.
  - unfold artifacts. simpl. rewrite foldl_app. simpl.
    rewrite (IoFacts.artifacts_writes out _ _ "" Hw (lookup_insert_eq _ _ _)).
    by rewrite Hwr.
Qed.

(** Whatever the artifact held before, a kept folder leaves in it its own
    entries only. *)
Lemma loop_body_overwrites (v : visit) (m : gmap string string) :
  ignored v = false → matching v ≠ [] →
  (∀ f, f ∈ matching v → read_text w (file_path v f) ≠ Raised OSError) →
  foldl apply_event m (body v).1 !! out_path (PosixPath.relpath (relative v))
  = Some (spec_artifact w file_types v).
Proof.
  intros Hign Hm Hread.
  destruct (loop_body_readable v Hign Hm Hread) as (_ & Htrace & Hwr & _).
  set (out := out_path (PosixPath.relpath (relative v))) in *.
  rewrite Htrace in Hwr |- *. simpl in Hwr |- *.
  rewrite IoFacts.written_app in Hwr. simpl in Hwr.
  rewrite PyStrFacts.app_nil_r in Hwr.
  rewrite foldl_app. simpl.
  rewrite (IoFacts.artifacts_writes out _ _ "" ); [by rewrite Hwr| |].
  - apply Forall_flat_map, Forall_forall. intros f _. apply copy_file_writes.
  - apply lookup_insert_eq.
Qed.


Lemma loop_body_done (v : visit) :
  (∀ p, read_text w p ≠ Raised OSError) → (body v).2 = Done tt.
Proof.
  intros Hread. destruct (ignored v) eqn:Hign;
    [by rewrite loop_body_skipped by by left|].
  destruct (decide (matching v = [])) as [Hm|Hm];
    [by rewrite loop_body_skipped by by right|].
  by apply loop_body_readable.
Qed.

Lemma loop_body_not_error (v : visit) : Forall not_error (body v).1.
Proof.
  destruct (ignored v) eqn:Hign;
    [rewrite loop_body_skipped by (by left); constructor|].
  destruct (decide (matching v = [])) as [Hm|Hm];
    [rewrite loop_body_skipped by (by right); constructor|].
  destruct (loop_body_kept v Hign Hm) as (t & r & Hloop & _ & ->). simpl.
  constructor; [done|]. apply Forall_app. split.
  - change t with (t, r).1. rewrite <- Hloop.
    apply IoFacts.for_each_Forall. intros f _. rewrite copy_file_cases.
    destruct (read_text w _) as [text|[]]; simpl; repeat constructor.
  - constructor; [done|]. destruct r; repeat constructor.
Qed.

(** With a root that exists, the run creates the output folder when it
    is missing and goes through the visits. *)
Lemma run_unfold :
  root_node w ≠ Missing →
  run = ((if output_exists w then mret tt else emit (Makedirs output_folder)) ;;
         for_each walk body).
Proof. unfold combine_files_by_folder. by destruct (root_node w). Qed.

Lemma run_trace :
  root_node w ≠ Missing →
  (run).1 = (if output_exists w then [] else [Makedirs output_folder]) ++
            (for_each walk body).1 ∧
  (run).2 = (for_each walk body).2.
Proof.
  intros Hroot. rewrite run_unfold by done.
  destruct (output_exists w); unfold emit, mret, io_ret;
    by rewrite IoFacts.bind_done.
Qed.


(** In a tree of valid names only the root has the relative path [.]. *)
Lemma walk_relpath (d : dir) (v : visit) :
  root_node w = Directory d → valid_tree d = true → v ∈ walk →
  PosixPath.relpath (relative v) = "." → relative v = [].
Proof.
  intros Hroot Hvalid Hv. unfold visits in Hv. rewrite Hroot in Hv.
  apply WalkFacts.os_walk_sound in Hv as (p & d' & -> & Htree & _).
  destruct (WalkFacts.in_tree_valid _ _ _ Htree Hvalid) as [Hp _].
  apply WalkFacts.relpath_valid. by rewrite app_nil_l.
Qed.

(** In a tree of valid names the check of the current folder can only
    stop the root: below the root a visited folder has passed the
    pruning under the very name the check looks at. *)
Lemma walk_not_ignored (d : dir) (v : visit) :
  root_node w = Directory d → valid_tree d = true → v ∈ walk →
  relative v ≠ [] → ignored v = false.
Proof.
  intros Hroot Hvalid Hv Hrel. unfold visits in Hv. rewrite Hroot in Hv.
  destruct (WalkFacts.os_walk_basename _ _ Hvalid _ _ _ Hv)
    as [[_ ?]|(n & Hlast & ->)]; [done|].
  apply WalkFacts.os_walk_sound in Hv as (q & _ & Hq & _ & _ & Hkept).
  rewrite app_nil_l in Hq. rewrite Hq in Hlast.
  apply last_Some in Hlast as [q' ->].
  apply Forall_app in Hkept as [_ Hn]. apply Forall_singleton in Hn as [names Hn].
  by apply prune_elem in Hn.
Qed.

(** Whatever the run writes to an artifact, it writes for a matching
    file of a visited folder that has passed the check of its name. *)
Lemma run_write (path data : string) :
  Write path data ∈ (run).1 →
  ∃ v f, v ∈ walk ∧ ignored v = false ∧ f ∈ matching v ∧
    path = out_path (PosixPath.relpath (relative v)) ∧
    Write path data ∈ (copy path v f).1.
Proof.
  intros He.
  assert (root_node w = Missing ∨ root_node w ≠ Missing) as [Hroot|Hroot]
    by (destruct (root_node w); [by left|by right..]).
  { unfold combine_files_by_folder in He. rewrite Hroot in He.
    apply list_elem_of_singleton in He. discriminate. }
  destruct (run_trace Hroot) as [Htrace _]. rewrite Htrace in He.
  apply elem_of_app in He as [He|He].
  { destruct (output_exists w); [by apply elem_of_nil in He|].
    apply list_elem_of_singleton in He. discriminate. }
  apply IoFacts.for_each_elem in He as (v & Hv & He).
  destruct (ignored v) eqn:Hign.
  { rewrite loop_body_skipped in He by (by left). by apply elem_of_nil in He. }
  destruct (decide (matching v = [])) as [Hm|Hm].
  { rewrite loop_body_skipped in He by (by right). by apply elem_of_nil in He. }
  destruct (loop_body_kept v Hign Hm) as (t & r & Hloop & Hw & Hbody).
  rewrite Hbody in He. simpl in He.
  apply elem_of_cons in He as [?|He]; [done|].
  apply elem_of_app in He as [He|He].
  - assert (path = out_path (PosixPath.relpath (relative v))) as Hpath.
    { rewrite Forall_forall in Hw. by specialize (Hw _ He). }
    change t with (t, r).1 in He. rewrite <- Hloop in He.
    apply IoFacts.for_each_elem in He as (f & Hf & He).
    exists v, f. subst path. by repeat split.
  - apply elem_of_cons in He as [?|He]; [done|].
    destruct r; [|by apply elem_of_nil in He].
    apply list_elem_of_singleton in He. discriminate.
Qed.

Lemma output_name_relative (rel : string) :
  PyStr.startswith (output_filename isalnum root_folder rel +:+ ".txt") "/" = false.
Proof.
  unfold output_filename. case_bool_decide.
  - apply PyStrFacts.has_char_false_startswith;
      [apply PosixPathFacts.basename_no_sep|done].
  - rewrite !PyStrFacts.app_assoc.
    apply PyStrFacts.has_char_false_startswith;
      [apply PosixPathFacts.basename_no_sep|done].
Qed.

(** Two relative paths name the same artifact exactly when both are the
    root, or neither is and they sanitize to the same text. *)
Lemma out_path_eq (rel1 rel2 : string) :
  out_path rel1 = out_path rel2 ↔
  (rel1 = "." ∧ rel2 = ".") ∨
  (rel1 ≠ "." ∧ rel2 ≠ "." ∧
   sanitize_filename isalnum (PyStr.replace PosixPath.sep "_"%char rel1) =
   sanitize_filename isalnum (PyStr.replace PosixPath.sep "_"%char rel2)).
Proof.
  unfold output_file_path. split.
  - intros H. apply PosixPathFacts.join_inj in H;
      [|apply output_name_relative..].
    apply PyStrFacts.app_inj_r in H. unfold output_filename in H.
    repeat case_bool_decide.
    + by left.
    + exfalso. rewrite <- (PyStrFacts.app_nil_r (PosixPath.basename _)) in H at 1.
      by apply String.app_inj in H.
    + exfalso. rewrite <- (PyStrFacts.app_nil_r (PosixPath.basename _)) in H at 2.
      by apply String.app_inj in H.
    + right. by do 2 apply String.app_inj in H.
  - unfold output_filename. intros [[-> ->]|(H1 & H2 & Hs)]; [done|].
    by rewrite !bool_decide_eq_false_2, Hs by done.
Qed.

End ProgramFacts.

(** * The claims of the specification *)

(** C6: the ignore predicate answers true exactly when some token of the
    ignore list occurs in the folder name as a substring; this is
    containment, not equality of names: the token [temp] also matches a
    folder named [temporary]. *)
Theorem should_ignore_folder_iff_substring :
  (∀ (folder_name : string) (ignore_list : list string),
     should_ignore_folder folder_name ignore_list = true ↔
     ∃ token, token ∈ ignore_list ∧
       ∃ pre post, folder_name = pre +:+ token +:+ post) ∧
  should_ignore_folder "temporary" ["temp"] = true ∧
  should_ignore_folder "temporary" ["tmp"] = false.
Proof.
  split; [|done]. intros folder_name ignore_list.
  apply should_ignore_folder_spec.
Qed.

(** C2: for a visited folder that is not ignored, the artifact is opened
    if and only if some immediate file name ends with one of the
    configured extensions (the extension is an exact suffix of the name);
    without such a file the folder leaves no event at all. *)
Theorem artifact_iff_matching_file (isalnum : ascii → bool) (w : world)
    (root_folder output_folder : string)
    (file_types ignore_folders : list string) (v : visit) :
  v ∈ visits w root_folder ignore_folders →
  should_ignore_folder (PosixPath.basename (current_folder v)) ignore_folders
    = false →
  (Open (output_file_path isalnum root_folder output_folder
           (PosixPath.relpath (relative v)))
     ∈ (loop_body isalnum w root_folder output_folder file_types
          ignore_folders v).1
   ↔ ∃ f ext, f ∈ filenames v ∧ ext ∈ file_types ∧ ∃ pre, f = pre +:+ ext) ∧
  ((¬ ∃ f ext, f ∈ filenames v ∧ ext ∈ file_types ∧ ∃ pre, f = pre +:+ ext) →
   loop_body isalnum w root_folder output_folder file_types ignore_folders v
     = ([], Done tt)).
Proof.
  intros _ Hign.
  pose proof (matching_files_nonempty file_types (filenames v)) as Hm.
  split; [split|].
  - intros Hopen. apply Hm. intros Hnil.
    rewrite loop_body_skipped in Hopen by by right.
    by apply elem_of_nil in Hopen.
  - intros Hex. apply Hm in Hex.
    destruct (loop_body_kept isalnum w root_folder output_folder file_types
                ignore_folders v Hign Hex) as (t & r & _ & _ & ->).
    left.
  - intros Hno. apply loop_body_skipped. right.
    destruct (decide (matching_files file_types (filenames v) = []));
      [done|]. exfalso. by apply Hno, Hm.
Qed.

(** The root of the demo tree has [a.js], and opens its artifact. *)
Lemma artifact_iff_matching_file_witness :
  Open "/p/out/proj.txt"
    ∈ (loop_body ascii_isalnum Demo.w "/p/proj" "/p/out" [".js"]
         default_ignore Demo.root_visit).1.
Proof.
  apply (artifact_iff_matching_file ascii_isalnum Demo.w "/p/proj" "/p/out"
           [".js"] default_ignore Demo.root_visit).
  - vm_compute. left.
  - reflexivity.
  - exists "a.js", ".js". split; [left|]. split; [left|]. by exists "a".
Defined.

(** C10: with the empty string among the extensions every immediate file
    of a visited folder matches; a folder that is not ignored and has a
    file then gets an artifact, which holds the entry of every one of its
    files when they can be read. *)
Theorem empty_extension_matches_every_file (isalnum : ascii → bool)
    (w : world) (root_folder output_folder : string)
    (file_types ignore_folders : list string) (v : visit) :
  "" ∈ file_types →
  v ∈ visits w root_folder ignore_folders →
  matching_files file_types (filenames v) = filenames v ∧
  (should_ignore_folder (PosixPath.basename (current_folder v)) ignore_folders
     = false →
   filenames v ≠ [] →
   (∃ rest,
      (loop_body isalnum w root_folder output_folder file_types
         ignore_folders v).1
      = Open (output_file_path isalnum root_folder output_folder
                (PosixPath.relpath (relative v))) :: rest) ∧
   ((∀ f, f ∈ filenames v →
       read_text w (PosixPath.join (current_folder v) f) ≠ Raised OSError) →
    written (output_file_path isalnum root_folder output_folder
               (PosixPath.relpath (relative v)))
      (loop_body isalnum w root_folder output_folder file_types
         ignore_folders v).1
    = foldr String.append "" (spec_entry w v <$> filenames v))).
Proof.
  intros Hempty _.
  assert (matching_files file_types (filenames v) = filenames v) as Hall.
  { unfold matching_files. induction (filenames v) as [|f l IH]; [done|].
    simpl. rewrite IH.
    assert (existsb (λ ext, PyStr.endswith f ext) file_types = true) as ->;
      [|done].
    apply existsb_exists. exists "".
    split; [by apply list_elem_of_In|apply PyStrFacts.endswith_empty]. }
  split; [done|]. intros Hign Hfiles. rewrite <- Hall in Hfiles. split.
  - destruct (loop_body_kept isalnum w root_folder output_folder file_types
                ignore_folders v Hign Hfiles) as (t & r & _ & _ & ->).
    by eexists.
  - intros Hread.
    destruct (loop_body_readable isalnum w root_folder output_folder
                file_types ignore_folders v Hign Hfiles) as (_ & _ & -> & _).
    + intros f Hf. apply Hread. by rewrite <- Hall.
    + unfold spec_artifact. by rewrite Hall.
Qed.

(** With [""] among the extensions both files of the demo root match. *)
Lemma empty_extension_matches_every_file_witness :
  matching_files [".js"; ""] (filenames Demo.root_visit)
    = ["a.js"; "notes.md"].
Proof.
  apply (empty_extension_matches_every_file ascii_isalnum Demo.w "/p/proj"
           "/p/out" [".js"; ""] default_ignore Demo.root_visit).
  - right. left.
  - vm_compute. left.
Defined.

(** C4: when the root does not exist the run prints the error and does
    nothing else: no folder is created, no artifact is opened or written;
    when the root exists the error is not printed and the run goes on to
    the output folder and the visits. *)
Theorem missing_root_does_nothing (isalnum : ascii → bool) (w : world)
    (root_folder output_folder : string)
    (file_types ignore_folders : list string) :
  (root_node w = Missing →
   combine_files_by_folder isalnum w root_folder output_folder file_types
     ignore_folders
   = ([Print ("Error: The folder '" +:+ root_folder +:+ "' does not exist.")],
      Done tt)) ∧
  (root_node w ≠ Missing →
   (Print ("Error: The folder '" +:+ root_folder +:+ "' does not exist.")
      ∉ (combine_files_by_folder isalnum w root_folder output_folder
           file_types ignore_folders).1) ∧
   combine_files_by_folder isalnum w root_folder output_folder file_types
     ignore_folders
   = ((if output_exists w then mret tt else emit (Makedirs output_folder)) ;;
      for_each (visits w root_folder ignore_folders)
        (loop_body isalnum w root_folder output_folder file_types
           ignore_folders))).
Proof.
  split.
  - intros Hroot. unfold combine_files_by_folder. by rewrite Hroot.
  - intros Hroot. split; [|by apply run_unfold].
    destruct (run_trace isalnum w root_folder output_folder file_types
                ignore_folders Hroot) as [-> _].
    intros Hin.
    assert (Forall not_error
              ((if output_exists w then [] else [Makedirs output_folder]) ++
               (for_each (visits w root_folder ignore_folders)
                  (loop_body isalnum w root_folder output_folder file_types
                     ignore_folders)).1)) as Hall.
    { apply Forall_app. split.
      - destruct (output_exists w); repeat constructor.
      - apply IoFacts.for_each_Forall. intros v _.
        apply loop_body_not_error. }
    rewrite Forall_forall in Hall. by specialize (Hall _ Hin).
Qed.

(** A missing root gives the error line alone; the demo run has none. *)
Lemma missing_root_does_nothing_witness :
  combine_files_by_folder ascii_isalnum
    (World Missing false (λ _, Raised OSError) (λ p, p))
    "/p/gone" "/p/out" [".js"] default_ignore
  = ([Print "Error: The folder '/p/gone' does not exist."], Done tt) ∧
  Print "Error: The folder '/p/proj' does not exist."
    ∉ (combine_files_by_folder ascii_isalnum Demo.w "/p/proj" "/p/out"
         [".js"] default_ignore).1.
Proof.
  split.
  - apply (missing_root_does_nothing ascii_isalnum
             (World Missing false (λ _, Raised OSError) (λ p, p))
             "/p/gone" "/p/out" [".js"] default_ignore).
    reflexivity.
  - apply (missing_root_does_nothing ascii_isalnum Demo.w "/p/proj" "/p/out"
             [".js"] default_ignore).
    discriminate.
Defined.

(** C8: without the [--ignore] flag the ignore list is
    [node_modules, .git]; with the flag and no value it is empty, and
    then no name is ignored and the run visits every folder of the tree,
    none of which is stopped by the check of its name. *)
Theorem ignore_flag_absent_or_empty :
  (∀ c, opt_ignore c = None →
     effective_ignore (parse_args c) = ["node_modules"; ".git"]) ∧
  (∀ c, opt_ignore c = Some [] → effective_ignore (parse_args c) = []) ∧
  (∀ folder_name, should_ignore_folder folder_name [] = false) ∧
  (∀ (w : world) (c : cmdline) (d : dir) (p : list string) (d' : dir),
     opt_ignore c = Some [] → root_node w = Directory d → in_tree d p d' →
     ∃ v, v ∈ visits w (abspath w (args_root (parse_args c)))
                (effective_ignore (parse_args c)) ∧
       relative v = p ∧ filenames v = dir_files d' ∧
       should_ignore_folder (PosixPath.basename (current_folder v))
         (effective_ignore (parse_args c)) = false).
Proof.
  assert (∀ c, opt_ignore c = Some [] → effective_ignore (parse_args c) = [])
    as Hempty.
  { intros c Hc. unfold effective_ignore, parse_args. simpl. by rewrite Hc. }
  repeat split; [|done|].
  - intros c Hc. unfold effective_ignore, parse_args. simpl. by rewrite Hc.
  - intros w c d p d' Hc Hroot Htree. rewrite (Hempty c Hc).
    unfold visits. rewrite Hroot.
    destruct (WalkFacts.os_walk_complete (prune []) d p d' prune_nil Htree
                (abspath w (args_root (parse_args c))) [])
      as (v & Hv & Hrel & Hfiles & _).
    by exists v.
Qed.

(** With an empty ignore list the demo run visits [node_modules/dep]. *)
Lemma ignore_flag_absent_or_empty_witness :
  effective_ignore (parse_args (Cmdline None None None None))
    = ["node_modules"; ".git"] ∧
  effective_ignore (parse_args (Cmdline None None None (Some []))) = [] ∧
  ∃ v, v ∈ visits Demo.w "/p/proj" [] ∧
    relative v = ["node_modules"; "dep"] ∧ filenames v = ["y.js"] ∧
    should_ignore_folder (PosixPath.basename (current_folder v)) [] = false.
Proof.
  destruct ignore_flag_absent_or_empty as (Habsent & Hempty & _ & Hall).
  split; [by apply Habsent|]. split; [by apply Hempty|].
  apply (Hall Demo.w (Cmdline (Some "proj") None None (Some [])) Demo.tree
           ["node_modules"; "dep"] (Dir ["y.js"] []));
    [reflexivity|reflexivity|].
  unfold Demo.tree.
  eapply in_tree_sub; [right; left|].
  eapply in_tree_sub; [left|]. apply in_tree_here.
Defined.

(** C5: a folder that is kept opens the artifact at
    [output_folder/(B + ".txt")], where [B] is the base name of the root
    for the root itself and otherwise the base name of the root, [_], and
    the sanitized relative path with its separators replaced by [_];
    sanitizing keeps the length and keeps a character that is
    alphanumeric, [-] or [_], and turns any other into [_]. *)
Theorem artifact_path_of_kept_folder (isalnum : ascii → bool) (w : world)
    (root_folder output_folder : string)
    (file_types ignore_folders : list string) (d : dir) (v : visit) :
  root_node w = Directory d → valid_tree d = true →
  v ∈ visits w root_folder ignore_folders →
  should_ignore_folder (PosixPath.basename (current_folder v)) ignore_folders
    = false →
  matching_files file_types (filenames v) ≠ [] →
  (∃ rest,
     (loop_body isalnum w root_folder output_folder file_types
        ignore_folders v).1
     = Open (PosixPath.join output_folder
               (spec_output_name isalnum (PosixPath.basename root_folder)
                  (relative v) +:+ ".txt")) :: rest) ∧
  (∀ s, String.length (sanitize_filename isalnum s) = String.length s) ∧
  (∀ s i, String.get i (sanitize_filename isalnum s)
     = (λ c, if isalnum c || bool_decide (c = "-"%char)
                || bool_decide (c = "_"%char)
             then c else "_"%char) <$> String.get i s).
Proof.
  intros Hroot Hvalid Hv Hign Hm. split; [|split].
  - destruct (loop_body_kept isalnum w root_folder output_folder file_types
                ignore_folders v Hign Hm) as (t & r & _ & _ & ->).
    eexists. simpl. f_equal. f_equal.
    unfold output_file_path, output_filename, spec_output_name.
    pose proof (walk_relpath w root_folder ignore_folders d v Hroot Hvalid Hv)
      as Hdot.
    destruct (relative v) as [|n l] eqn:Hrel; [done|].
    rewrite bool_decide_eq_false_2; [done|]. intros Heq. by apply Hdot in Heq.
  - intros s. apply PyStrFacts.map_length.
  - intros s i. apply PyStrFacts.map_get.
Qed.

(** The folder [src/utils] of the demo tree opens [proj_src_utils.txt]. *)
Lemma artifact_path_of_kept_folder_witness :
  ∃ rest,
    (loop_body ascii_isalnum Demo.w "/p/proj" "/p/out" [".js"]
       default_ignore Demo.utils_visit).1
    = Open "/p/out/proj_src_utils.txt" :: rest.
Proof.
  apply (artifact_path_of_kept_folder ascii_isalnum Demo.w "/p/proj" "/p/out"
           [".js"] default_ignore Demo.tree Demo.utils_visit).
  - reflexivity.
  - reflexivity.
  - vm_compute. right. right. left.
  - reflexivity.
  - discriminate.
Defined.

(** When the only failures of a read are decoding errors, the run
    is not aborted and goes through every visit; the artifact of every
    kept folder is opened, receives the entry of each matching file and is
    closed; a file that cannot be decoded gets its header, the placeholder
    line and the separator, a file that can gets its header, its content
    as read and the separator. *)
Theorem decode_error_is_not_fatal (isalnum : ascii → bool) (w : world)
    (root_folder output_folder : string)
    (file_types ignore_folders : list string) :
  (∀ p, read_text w p ≠ Raised OSError) →
  (combine_files_by_folder isalnum w root_folder output_folder file_types
     ignore_folders).2 = Done tt ∧
  (root_node w ≠ Missing →
   (combine_files_by_folder isalnum w root_folder output_folder file_types
      ignore_folders).1
   = (if output_exists w then [] else [Makedirs output_folder]) ++
     flat_map
       (λ v, (loop_body isalnum w root_folder output_folder file_types
                ignore_folders v).1)
       (visits w root_folder ignore_folders)) ∧
  (∀ v, v ∈ visits w root_folder ignore_folders →
     should_ignore_folder (PosixPath.basename (current_folder v))
       ignore_folders = false →
     matching_files file_types (filenames v) ≠ [] →
     ∃ out, out = output_file_path isalnum root_folder output_folder
                    (PosixPath.relpath (relative v)) ∧
       (loop_body isalnum w root_folder output_folder file_types
          ignore_folders v).1
       = Open out ::
         flat_map (λ f, (copy_file w out v f).1)
           (matching_files file_types (filenames v)) ++
         [Close out;
          Print ("Combined " +:+
                 pretty (length (matching_files file_types (filenames v))) +:+
                 " file(s) for '" +:+ PosixPath.relpath (relative v) +:+
                 "' into '" +:+ out +:+ "'.")] ∧
       ∀ f, f ∈ matching_files file_types (filenames v) →
         (read_text w (PosixPath.join (current_folder v) f)
            = Raised UnicodeDecodeError →
          copy_file w out v f
          = ([Write out (separator v f +:+ LF +:+ LF);
              Print ("Warning: Unable to read '" +:+
                     PosixPath.join (current_folder v) f +:+
                     "'. It may not be a text file or may use a different encoding.");
              Write out ("# Warning: Content of '" +:+
                         file_relative_path v f +:+
                         "' could not be included due to encoding issues." +:+
                         LF);
              Write out (LF +:+ LF)], Done tt)) ∧
         (∀ text, read_text w (PosixPath.join (current_folder v) f)
                    = Done text →
          copy_file w out v f
          = ([Write out (separator v f +:+ LF +:+ LF); Write out text;
              Write out (LF +:+ LF)], Done tt))).
Proof.
  intros Hread.
  assert (for_each (visits w root_folder ignore_folders)
            (loop_body isalnum w root_folder output_folder file_types
               ignore_folders)
          = (flat_map
               (λ v, (loop_body isalnum w root_folder output_folder
                        file_types ignore_folders v).1)
               (visits w root_folder ignore_folders), Done tt)) as Hloop.
  { apply IoFacts.for_each_done. intros v _. by apply loop_body_done. }
  split; [|split].
  - destruct (root_node w) eqn:Hroot.
    + unfold combine_files_by_folder. by rewrite Hroot.
    + destruct (run_trace isalnum w root_folder output_folder file_types
                  ignore_folders) as [_ ->]; [by rewrite Hroot|].
      by rewrite Hloop.
    + destruct (run_trace isalnum w root_folder output_folder file_types
                  ignore_folders) as [_ ->]; [by rewrite Hroot|].
      by rewrite Hloop.
  - intros Hroot.
    destruct (run_trace isalnum w root_folder output_folder file_types
                ignore_folders Hroot) as [-> _].
    by rewrite Hloop.
  - intros v _ Hign Hm. eexists. split; [done|]. split.
    + by apply loop_body_readable.
    + intros f _. rewrite copy_file_cases. split.
      * by intros ->.
      * by intros text ->.
Qed.

(** The demo run, which meets a file it cannot decode, ends normally. *)
Lemma decode_error_is_not_fatal_witness :
  (combine_files_by_folder ascii_isalnum Demo.w "/p/proj" "/p/out" [".js"]
     default_ignore).2 = Done tt.
Proof.
  apply (decode_error_is_not_fatal ascii_isalnum Demo.w "/p/proj" "/p/out"
           [".js"] default_ignore).
  intros p. simpl. unfold Demo.reads. repeat case_bool_decide; discriminate.
Defined.

(** In the artifact of a folder that is kept and whose matching
    files can be read, what is written for each matching file is the
    header line [# ===== path relative to the root =====], a blank line,
    the content of the file as read or else the placeholder line, and two
    line feeds; the artifact is these entries one after the other, the
    last one with its two line feeds as well. *)
Theorem entry_format (isalnum : ascii → bool) (w : world)
    (root_folder output_folder : string)
    (file_types ignore_folders : list string) (v : visit) :
  v ∈ visits w root_folder ignore_folders →
  should_ignore_folder (PosixPath.basename (current_folder v)) ignore_folders
    = false →
  matching_files file_types (filenames v) ≠ [] →
  (∀ f, f ∈ matching_files file_types (filenames v) →
     read_text w (PosixPath.join (current_folder v) f) ≠ Raised OSError) →
  ∃ out, out = output_file_path isalnum root_folder output_folder
                 (PosixPath.relpath (relative v)) ∧
    (∀ f, f ∈ matching_files file_types (filenames v) →
       written out (copy_file w out v f).1
       = "# ===== " +:+ PosixPath.relpath (relative v ++ [f]) +:+ " =====" +:+
         LF +:+ LF +:+
         match read_text w (PosixPath.join (current_folder v) f) with
         | Done text => text
         | Raised _ =>
             "# Warning: Content of '" +:+
             PosixPath.relpath (relative v ++ [f]) +:+
             "' could not be included due to encoding issues." +:+ LF
         end +:+ LF +:+ LF) ∧
    written out
      (loop_body isalnum w root_folder output_folder file_types
         ignore_folders v).1
    = foldr String.append ""
        ((λ f, written out (copy_file w out v f).1) <$>
           matching_files file_types (filenames v)) ∧
    artifacts
      (loop_body isalnum w root_folder output_folder file_types
         ignore_folders v).1 !! out
    = Some (foldr String.append ""
              ((λ f, written out (copy_file w out v f).1) <$>
                 matching_files file_types (filenames v))).
Proof.
  intros _ Hign Hm Hread. eexists. split; [done|].
  set (out := output_file_path _ _ _ _).
  assert (foldr String.append ""
            ((λ f, written out (copy_file w out v f).1) <$>
               matching_files file_types (filenames v))
          = spec_artifact w file_types v) as ->.
  { unfold spec_artifact. revert Hread.
    generalize (matching_files file_types (filenames v)).
    induction l as [|f l IH]; intros Hread; [done|].
    rewrite !fmap_cons. cbn [foldr]. f_equal.
    - apply copy_file_written, Hread. left.
    - apply IH. intros g Hg. apply Hread. by right. }
  split.
  - intros f Hf. rewrite copy_file_written by by apply Hread. done.
  - by apply loop_body_readable.
Qed.

(** The artifact of [src/utils] in the demo tree: the header, a blank
    line, the placeholder line and two line feeds. *)
Lemma entry_format_witness :
  artifacts
    (loop_body ascii_isalnum Demo.w "/p/proj" "/p/out" [".js"]
       default_ignore Demo.utils_visit).1 !! "/p/out/proj_src_utils.txt"
  = Some ("# ===== src/utils/d.js =====" +:+ LF +:+ LF +:+
          "# Warning: Content of 'src/utils/d.js' could not be included due to encoding issues." +:+
          LF +:+ LF +:+ LF).
Proof.
  destruct (entry_format ascii_isalnum Demo.w "/p/proj" "/p/out" [".js"]
              default_ignore Demo.utils_visit) as (out & Hout & _ & _ & Hart).
  - vm_compute. right. right. left.
  - reflexivity.
  - discriminate.
  - intros f Hf. simpl. unfold Demo.reads. repeat case_bool_decide; discriminate.
  - vm_compute in Hout. subst out. rewrite Hart. reflexivity.
Defined.

(** ** Reads in text mode *)

Lemma universal_newlines_no_cr (s : string) :
  PyStr.has_char CR s = false → universal_newlines s = s.
Proof.
  induction s as [|c s IH]; [done|]. simpl.
  intros [Hc Hs]%orb_false_iff. apply bool_decide_eq_false in Hc.
  by rewrite decide_False, IH.
Qed.

Lemma text_mode_read_raises (content : string → outcome string)
    (p : string) (e : exn) :
  text_mode_read content p = Raised e ↔ content p = Raised e.
Proof. unfold text_mode_read. by destruct (content p). Qed.

(** C9 as the specification states it fails: the file [dos.js] holds
    lines that end with a carriage return and a line feed, and a bare
    carriage return; its entry in the artifact holds line feeds in their
    place, not the content of the file as it is. *)
Lemma crlf_file_is_not_copied_verbatim :
  Crlf.content "/p/proj/dos.js"
  = Done ("a" +:+ String CR LF +:+ "b" +:+ String CR "c" +:+ LF) ∧
  written "/out/proj.txt"
    (copy_file Crlf.w "/out/proj.txt" Crlf.root_visit "dos.js").1
  = "# ===== dos.js =====" +:+ LF +:+ LF +:+
    ("a" +:+ LF +:+ "b" +:+ LF +:+ "c" +:+ LF) +:+ LF +:+ LF ∧
  written "/out/proj.txt"
    (copy_file Crlf.w "/out/proj.txt" Crlf.root_visit "dos.js").1
  ≠ "# ===== dos.js =====" +:+ LF +:+ LF +:+
    ("a" +:+ String CR LF +:+ "b" +:+ String CR "c" +:+ LF) +:+ LF +:+ LF.
Proof. repeat split; vm_compute; congruence. Qed.

(** C9, amended: in the artifact of a folder that is kept and whose
    matching files can be opened, what is written for each matching file
    is the header line [# ===== path relative to the root =====], a blank
    line, the content of the file as a read in text mode gives it (the
    decoded characters, with a line feed for every carriage return and
    line feed and for every other carriage return) or else the
    placeholder line, and two line feeds; a file that holds no carriage
    return is copied as it is; the artifact is these entries one after
    the other, the last one with its two line feeds as well. *)
Theorem entry_format_in_text_mode (isalnum : ascii → bool) (w : world)
    (content : string → outcome string)
    (root_folder output_folder : string)
    (file_types ignore_folders : list string) (v : visit) :
  (∀ p, read_text w p = text_mode_read content p) →
  v ∈ visits w root_folder ignore_folders →
  should_ignore_folder (PosixPath.basename (current_folder v)) ignore_folders
    = false →
  matching_files file_types (filenames v) ≠ [] →
  (∀ f, f ∈ matching_files file_types (filenames v) →
     content (PosixPath.join (current_folder v) f) ≠ Raised OSError) →
  ∃ out, out = output_file_path isalnum root_folder output_folder
                 (PosixPath.relpath (relative v)) ∧
    (∀ f, f ∈ matching_files file_types (filenames v) →
       written out (copy_file w out v f).1
       = "# ===== " +:+ PosixPath.relpath (relative v ++ [f]) +:+ " =====" +:+
         LF +:+ LF +:+
         match content (PosixPath.join (current_folder v) f) with
         | Done s => universal_newlines s
         | Raised _ =>
             "# Warning: Content of '" +:+
             PosixPath.relpath (relative v ++ [f]) +:+
             "' could not be included due to encoding issues." +:+ LF
         end +:+ LF +:+ LF) ∧
    (∀ f s, f ∈ matching_files file_types (filenames v) →
       content (PosixPath.join (current_folder v) f) = Done s →
       PyStr.has_char CR s = false →
       written out (copy_file w out v f).1
       = "# ===== " +:+ PosixPath.relpath (relative v ++ [f]) +:+ " =====" +:+
         LF +:+ LF +:+ s +:+ LF +:+ LF) ∧
    written out
      (loop_body isalnum w root_folder output_folder file_types
         ignore_folders v).1
    = foldr String.append ""
        ((λ f, written out (copy_file w out v f).1) <$>
           matching_files file_types (filenames v)) ∧
    artifacts
      (loop_body isalnum w root_folder output_folder file_types
         ignore_folders v).1 !! out
    = Some (foldr String.append ""
              ((λ f, written out (copy_file w out v f).1) <$>
                 matching_files file_types (filenames v))).
Proof.
  intros Hw Hv Hign Hm Hread.
  assert (∀ f, f ∈ matching_files file_types (filenames v) →
            read_text w (PosixPath.join (current_folder v) f) ≠ Raised OSError)
    as Hread'.
  { intros f Hf. rewrite Hw, text_mode_read_raises. by apply Hread. }
  destruct (entry_format isalnum w root_folder output_folder file_types
              ignore_folders v Hv Hign Hm Hread')
    as (out & Hout & Hentry & Hwritten & Hart).
  assert (∀ f, f ∈ matching_files file_types (filenames v) →
       written out (copy_file w out v f).1
       = "# ===== " +:+ PosixPath.relpath (relative v ++ [f]) +:+ " =====" +:+
         LF +:+ LF +:+
         match content (PosixPath.join (current_folder v) f) with
         | Done s => universal_newlines s
         | Raised _ =>
             "# Warning: Content of '" +:+
             PosixPath.relpath (relative v ++ [f]) +:+
             "' could not be included due to encoding issues." +:+ LF
         end +:+ LF +:+ LF) as Hentry'.
  { intros f Hf. rewrite (Hentry f Hf), Hw. unfold text_mode_read.
    by destruct (content _). }
  exists out. split; [done|]. split; [done|]. split; [|done].
  intros f s Hf Hs Hcr. by rewrite (Hentry' f Hf), Hs, universal_newlines_no_cr.
Qed.

(** The entry of [dos.js]: line feeds where the file has carriage
    returns. *)
Lemma entry_format_in_text_mode_witness :
  written "/out/proj.txt"
    (copy_file Crlf.w "/out/proj.txt" Crlf.root_visit "dos.js").1
  = "# ===== dos.js =====" +:+ LF +:+ LF +:+
    universal_newlines Crlf.dos_text +:+ LF +:+ LF.
Proof.
  destruct (entry_format_in_text_mode ascii_isalnum Crlf.w Crlf.content
              "/p/proj" "/out" [".js"] default_ignore Crlf.root_visit)
    as (out & Hout & Hentry & _).
  - reflexivity.
  - vm_compute. left.
  - reflexivity.
  - discriminate.
  - intros f Hf. unfold Crlf.content. case_bool_decide; discriminate.
  - vm_compute in Hout. subst out.
    rewrite (Hentry "dos.js") by (vm_compute; right; left). reflexivity.
Defined.

(** C3 as the specification states it fails: the run on the folder with
    [bad.js] and [dos.js] is not aborted and the artifact holds the
    placeholder for [bad.js], but what it holds for [dos.js] is not the
    content of that file as it is. *)
Lemma decodable_file_is_not_copied_verbatim :
  Crlf.content "/p/proj/bad.js" = Raised UnicodeDecodeError ∧
  Crlf.content "/p/proj/dos.js"
  = Done ("a" +:+ String CR LF +:+ "b" +:+ String CR "c" +:+ LF) ∧
  Crlf.run.2 = Done tt ∧
  artifacts Crlf.run.1 !! "/out/proj.txt"
  = Some ("# ===== bad.js =====" +:+ LF +:+ LF +:+
          "# Warning: Content of 'bad.js' could not be included due to encoding issues." +:+
          LF +:+ LF +:+ LF +:+
          "# ===== dos.js =====" +:+ LF +:+ LF +:+
          ("a" +:+ LF +:+ "b" +:+ LF +:+ "c" +:+ LF) +:+ LF +:+ LF) ∧
  artifacts Crlf.run.1 !! "/out/proj.txt"
  ≠ Some ("# ===== bad.js =====" +:+ LF +:+ LF +:+
          "# Warning: Content of 'bad.js' could not be included due to encoding issues." +:+
          LF +:+ LF +:+ LF +:+
          "# ===== dos.js =====" +:+ LF +:+ LF +:+
          ("a" +:+ String CR LF +:+ "b" +:+ String CR "c" +:+ LF) +:+
          LF +:+ LF).
Proof. repeat split; vm_compute; congruence. Qed.

(** C3, amended: when a file that cannot be read fails with a decoding
    error, the run is not aborted and goes through every visit; the
    artifact of every kept folder is opened and closed, and receives for
    a file that cannot be decoded its header, the placeholder line and
    the separator, and for every other matching file its header, its
    content as a read in text mode gives it (the decoded characters, with
    a line feed for every carriage return and line feed and for every
    other carriage return) and the separator; a file that holds no
    carriage return is copied as it is. *)
Theorem decode_error_is_not_fatal_in_text_mode (isalnum : ascii → bool)
    (w : world) (content : string → outcome string)
    (root_folder output_folder : string)
    (file_types ignore_folders : list string) :
  (∀ p, read_text w p = text_mode_read content p) →
  (∀ p, content p ≠ Raised OSError) →
  (combine_files_by_folder isalnum w root_folder output_folder file_types
     ignore_folders).2 = Done tt ∧
  (root_node w ≠ Missing →
   (combine_files_by_folder isalnum w root_folder output_folder file_types
      ignore_folders).1
   = (if output_exists w then [] else [Makedirs output_folder]) ++
     flat_map
       (λ v, (loop_body isalnum w root_folder output_folder file_types
                ignore_folders v).1)
       (visits w root_folder ignore_folders)) ∧
  (∀ v, v ∈ visits w root_folder ignore_folders →
     should_ignore_folder (PosixPath.basename (current_folder v))
       ignore_folders = false →
     matching_files file_types (filenames v) ≠ [] →
     ∃ out, out = output_file_path isalnum root_folder output_folder
                    (PosixPath.relpath (relative v)) ∧
       (loop_body isalnum w root_folder output_folder file_types
          ignore_folders v).1
       = Open out ::
         flat_map (λ f, (copy_file w out v f).1)
           (matching_files file_types (filenames v)) ++
         [Close out;
          Print ("Combined " +:+
                 pretty (length (matching_files file_types (filenames v))) +:+
                 " file(s) for '" +:+ PosixPath.relpath (relative v) +:+
                 "' into '" +:+ out +:+ "'.")] ∧
       ∀ f, f ∈ matching_files file_types (filenames v) →
         (content (PosixPath.join (current_folder v) f)
            = Raised UnicodeDecodeError →
          copy_file w out v f
          = ([Write out (separator v f +:+ LF +:+ LF);
              Print ("Warning: Unable to read '" +:+
                     PosixPath.join (current_folder v) f +:+
                     "'. It may not be a text file or may use a different encoding.");
              Write out ("# Warning: Content of '" +:+
                         file_relative_path v f +:+
                         "' could not be included due to encoding issues." +:+
                         LF);
              Write out (LF +:+ LF)], Done tt)) ∧
         (∀ s, content (PosixPath.join (current_folder v) f) = Done s →
          copy_file w out v f
          = ([Write out (separator v f +:+ LF +:+ LF);
              Write out (universal_newlines s);
              Write out (LF +:+ LF)], Done tt)) ∧
         (∀ s, content (PosixPath.join (current_folder v) f) = Done s →
          PyStr.has_char CR s = false →
          copy_file w out v f
          = ([Write out (separator v f +:+ LF +:+ LF); Write out s;
              Write out (LF +:+ LF)], Done tt))).
Proof.
  intros Hw Hcontent.
  assert (∀ p, read_text w p ≠ Raised OSError) as Hread.
  { intros p. rewrite Hw, text_mode_read_raises. apply Hcontent. }
  destruct (decode_error_is_not_fatal isalnum w root_folder output_folder
              file_types ignore_folders Hread) as (Hdone & Htrace & Hkept).
  split; [done|]. split; [done|].
  intros v Hv Hign Hm.
  destruct (Hkept v Hv Hign Hm) as (out & Hout & Hbody & Hfiles).
  exists out. split; [done|]. split; [done|].
  intros f Hf. destruct (Hfiles f Hf) as [Hbad Hgood].
  assert (∀ s, content (PosixPath.join (current_folder v) f) = Done s →
            copy_file w out v f
            = ([Write out (separator v f +:+ LF +:+ LF);
                Write out (universal_newlines s);
                Write out (LF +:+ LF)], Done tt)) as Htext.
  { intros s Hs. apply Hgood. rewrite Hw. unfold text_mode_read.
    by rewrite Hs. }
  split; [|split; [done|]].
  - intros He. apply Hbad. by rewrite Hw, text_mode_read_raises.
  - intros s Hs Hcr. by rewrite (Htext s Hs), universal_newlines_no_cr.
Qed.

(** The run on the folder with [bad.js] and [dos.js] ends normally. *)
Lemma decode_error_is_not_fatal_in_text_mode_witness :
  (combine_files_by_folder ascii_isalnum Crlf.w "/p/proj" "/out" [".js"]
     default_ignore).2 = Done tt.
Proof.
  apply (decode_error_is_not_fatal_in_text_mode ascii_isalnum Crlf.w
           Crlf.content "/p/proj" "/out" [".js"] default_ignore).
  - reflexivity.
  - intros p. unfold Crlf.content. case_bool_decide; discriminate.
Defined.




(** C1 as the specification states it fails for the root: the root
    [/p/node_modules] carries an ignore token in its name, yet the file
    [src/a.js] below it is written to an artifact. *)
Lemma ignored_root_subfolder_is_combined :
  "node_modules" ∈ default_ignore ∧
  should_ignore_folder (PosixPath.basename "/p/node_modules") default_ignore
    = true ∧
  in_tree IgnoredRoot.tree ["src"] (Dir ["a.js"] []) ∧
  IgnoredRoot.run
  = ([Open "/out/node_modules_src.txt";
      Write "/out/node_modules_src.txt"
        ("# ===== src/a.js =====" +:+ LF +:+ LF);
      Write "/out/node_modules_src.txt" "</p/node_modules/src/a.js>";
      Write "/out/node_modules_src.txt" (LF +:+ LF);
      Close "/out/node_modules_src.txt";
      Print "Combined 1 file(s) for 'src' into '/out/node_modules_src.txt'."],
     Done tt).
Proof.
  split; [left|]. split; [reflexivity|]. split.
  - unfold IgnoredRoot.tree. eapply in_tree_sub; [left|apply in_tree_here].
  - vm_compute. reflexivity.
Qed.

(** C1, amended: a folder below the root whose name contains an ignore
    token is never visited, and neither is any folder under it; when the
    name of the root itself contains an ignore token, the visit of the
    root leaves no event, so none of the immediate files of the root
    reaches an artifact; and whatever the run writes to an artifact, it
    writes for a matching file of a visited folder of which neither the
    base name nor any name on the way from the root contains the
    token. *)
Theorem ignored_folders_are_pruned (isalnum : ascii → bool) (w : world)
    (root_folder output_folder : string)
    (file_types ignore_folders : list string) (token : string) :
  token ∈ ignore_folders →
  (∀ (p : list string) (n : string) (v : visit),
     last p = Some n → (∃ pre post, n = pre +:+ token +:+ post) →
     v ∈ visits w root_folder ignore_folders →
     ¬ p `prefix_of` relative v) ∧
  (∀ d, root_node w = Directory d →
     (∃ pre post, PosixPath.basename root_folder = pre +:+ token +:+ post) →
     (∃ rest, visits w root_folder ignore_folders
              = Visit root_folder [] (dir_subdirs d).*1 (dir_files d) :: rest) ∧
     loop_body isalnum w root_folder output_folder file_types ignore_folders
       (Visit root_folder [] (dir_subdirs d).*1 (dir_files d))
     = ([], Done tt)) ∧
  (∀ path data,
     Write path data
       ∈ (combine_files_by_folder isalnum w root_folder output_folder
            file_types ignore_folders).1 →
     ∃ v f, v ∈ visits w root_folder ignore_folders ∧
       f ∈ matching_files file_types (filenames v) ∧
       Write path data ∈ (copy_file w path v f).1 ∧
       (∀ n, n ∈ relative v → ¬ ∃ pre post, n = pre +:+ token +:+ post) ∧
       ¬ ∃ pre post,
           PosixPath.basename (current_folder v) = pre +:+ token +:+ post).
Proof.
  intros Htoken.
  assert (∀ n, should_ignore_folder n ignore_folders = false →
            ¬ ∃ pre post, n = pre +:+ token +:+ post) as Hfree.
  { intros n Hn Hsub.
    assert (should_ignore_folder n ignore_folders = true)
      by (apply should_ignore_folder_spec; eauto).
    congruence. }
  assert (∀ v, v ∈ visits w root_folder ignore_folders →
            ∀ n, n ∈ relative v →
              should_ignore_folder n ignore_folders = false) as Hkept.
  { intros v Hv n Hn. unfold visits in Hv.
    destruct (root_node w) as [| |d]; [by apply elem_of_nil in Hv..|].
    apply WalkFacts.os_walk_sound in Hv as (q & _ & Hrel & _ & _ & Hq).
    rewrite app_nil_l in Hrel. rewrite Hrel in Hn.
    rewrite Forall_forall in Hq. destruct (Hq n Hn) as [names Hnames].
    by apply prune_elem in Hnames. }
  split; [|split].
  - intros p n v Hlast Hsub Hv [k Hk].
    apply last_Some in Hlast as [p' ->].
    apply (Hfree n); [|done]. apply (Hkept v Hv). rewrite Hk.
    apply elem_of_app. left. apply elem_of_app. right. left.
  - intros d Hroot Hsub. split.
    + unfold visits. rewrite Hroot. destruct d as [files subs]. by eexists.
    + apply loop_body_skipped. left. simpl.
      apply should_ignore_folder_spec. eauto.
  - intros path data He.
    apply run_write in He as (v & f & Hv & Hign & Hf & _ & He).
    exists v, f. repeat split; [done..| |].
    + intros n Hn. by apply Hfree, (Hkept v).
    + by apply Hfree.
Qed.

(** No visit of the demo run lies under [node_modules]; a root named
    [node_modules] is skipped. *)
Lemma ignored_folders_are_pruned_witness :
  ¬ ["node_modules"] `prefix_of` relative Demo.utils_visit ∧
  loop_body ascii_isalnum IgnoredRoot.w "/p/node_modules" "/out" [".js"]
    default_ignore (Visit "/p/node_modules" [] ["src"] ["top.js"])
  = ([], Done tt).
Proof.
  split.
  - destruct (ignored_folders_are_pruned ascii_isalnum Demo.w "/p/proj"
                "/p/out" [".js"] default_ignore "node_modules") as [Hsub _].
    + left.
    + apply (Hsub ["node_modules"] "node_modules" Demo.utils_visit).
      * reflexivity.
      * by exists "", "".
      * vm_compute. right. right. left.
  - destruct (ignored_folders_are_pruned ascii_isalnum IgnoredRoot.w
                "/p/node_modules" "/out" [".js"] default_ignore
                "node_modules") as (_ & Hroot & _).
    + left.
    + apply (Hroot IgnoredRoot.tree).
      * reflexivity.
      * by exists "", "".
Defined.

(** * Further properties of the code *)

(** ** Helper facts *)

Section MoreFacts.

Variable isalnum : ascii → bool.
Variable w : world.
Variables root_folder output_folder : string.
Variables file_types ignore_folders : list string.

Local Abbreviation out_path := (output_file_path isalnum root_folder output_folder).
Local Abbreviation copy := (copy_file w).
Local Abbreviation body :=
  (loop_body isalnum w root_folder output_folder file_types ignore_folders).
Local Abbreviation run :=
  (combine_files_by_folder isalnum w root_folder output_folder
     file_types ignore_folders).
Local Abbreviation walk := (visits w root_folder ignore_folders).
Local Abbreviation ignored v :=
  (should_ignore_folder (PosixPath.basename (current_folder v)) ignore_folders).
Local Abbreviation matching v := (matching_files file_types (filenames v)).
Local Abbreviation file_path v f := (PosixPath.join (current_folder v) f).

Lemma sanitize_char_safe (c : ascii) :
  safe_char isalnum (if safe_char isalnum c then c else "_"%char) = true.
Proof.
  destruct (safe_char isalnum c) eqn:Hc; [done|].
  unfold safe_char. by rewrite orb_true_r.
Qed.

Lemma sanitize_filename_all_safe (s : string) :
  all_chars (safe_char isalnum) (sanitize_filename isalnum s) = true.
Proof.
  induction s as [|c s IH]; [done|]. unfold sanitize_filename in *.
  cbn [PyStr.map all_chars]. rewrite IH, andb_true_r.
  apply (sanitize_char_safe c).
Qed.

Lemma sanitize_filename_fixed (s : string) :
  sanitize_filename isalnum s = s ↔ all_chars (safe_char isalnum) s = true.
Proof.
  induction s as [|c s IH]; [done|]. unfold sanitize_filename in *.
  cbn [PyStr.map all_chars].
  change (isalnum c || bool_decide (c = "-"%char) || bool_decide (c = "_"%char))
    with (safe_char isalnum c).
  rewrite andb_true_iff, <- IH. destruct (safe_char isalnum c) eqn:Hc.
  - split; [by intros [= ?]|by intros [_ ->]].
  - split; [|by intros [? _]]. intros [= Hu _].
    unfold safe_char in Hc. rewrite <- Hu in Hc.
    by rewrite orb_true_r in Hc.
Qed.

Lemma all_chars_no_sep (s : string) :
  safe_char isalnum PosixPath.sep = false →
  all_chars (safe_char isalnum) s = true →
  PyStr.has_char PosixPath.sep s = false.
Proof.
  intros Hsep. induction s as [|c s IH]; [done|]. simpl.
  intros [Hc Hs]%andb_true_iff. rewrite IH by done.
  rewrite orb_false_r. apply bool_decide_eq_false. intros ->. congruence.
Qed.

Lemma matching_files_nil_types (names : list string) :
  matching_files [] names = [].
Proof. unfold matching_files. by induction names. Qed.

Lemma flat_map_nil {A B} (f : A → list B) (l : list A) :
  (∀ x, x ∈ l → f x = []) → flat_map f l = [].
Proof.
  induction l as [|x l IH]; intros H; [done|]. simpl.
  rewrite (H x) by left. apply IH. intros y Hy. apply H. by right.
Qed.

(** A run in which every folder is skipped. *)
Lemma run_all_skipped :
  root_node w ≠ Missing →
  (∀ v, v ∈ walk → ignored v = true ∨ matching v = []) →
  run = (if output_exists w then [] else [Makedirs output_folder], Done tt).
Proof.
  intros Hroot Hskip.
  assert (∀ v, v ∈ walk → body v = ([], Done tt)) as Hbody
    by (intros v Hv; by apply loop_body_skipped, Hskip).
  destruct (run_trace isalnum w root_folder output_folder file_types
              ignore_folders Hroot) as [Htrace Hres].
  rewrite IoFacts.for_each_done in Htrace, Hres
    by (intros v Hv; by rewrite Hbody).
  simpl in Htrace, Hres.
  rewrite flat_map_nil in Htrace by (intros v Hv; by rewrite Hbody).
  rewrite app_nil_r in Htrace.
  destruct run as [t r]. simpl in *. by subst.
Qed.

(** The inner loop either ends or stops on the error the handler does
    not catch. *)
Lemma copy_file_outcome (out : string) (v : visit) (f : string) :
  (copy out v f).2 = Done tt ∨ (copy out v f).2 = Raised OSError.
Proof.
  rewrite copy_file_cases. destruct (read_text w _) as [text|[]]; auto.
Qed.

Lemma for_each_outcome {A} (l : list A) (step : A → io unit) (e : exn) :
  (∀ x, x ∈ l → (step x).2 ≠ Raised e) → (for_each l step).2 ≠ Raised e.
Proof.
  induction l as [|x l IH]; intros H; [done|]. simpl.
  destruct (IoFacts.bind_trace (step x) (λ _, for_each l step)) as (t & _ & Ht).
  specialize (H x) as Hx. destruct (step x).2 as [[]|e'].
  - destruct Ht as [_ ->]. apply IH. intros y Hy. apply H. by right.
  - destruct Ht as [_ ->]. apply Hx. left.
Qed.

Lemma loop_body_outcome (v : visit) : (body v).2 ≠ Raised UnicodeDecodeError.
Proof.
  destruct (ignored v) eqn:Hign;
    [by rewrite loop_body_skipped by by left|].
  destruct (decide (matching v = [])) as [Hm|Hm];
    [by rewrite loop_body_skipped by by right|].
  destruct (loop_body_kept isalnum w root_folder output_folder file_types
              ignore_folders v Hign Hm) as (t & r & Hloop & _ & ->). simpl.
  change r with (t, r).2. rewrite <- Hloop.
  apply for_each_outcome. intros f _.
  by destruct (copy_file_outcome
                 (out_path (PosixPath.relpath (relative v))) v f) as [-> | ->].
Qed.

(** A loop stops at the first pass that raises. *)
Lemma for_each_raised {A} (l1 l2 : list A) (x : A) (step : A → io unit)
    (e : exn) :
  (∀ y, y ∈ l1 → (step y).2 = Done tt) → (step x).2 = Raised e →
  for_each (l1 ++ x :: l2) step
  = (flat_map (λ y, (step y).1) l1 ++ (step x).1, Raised e).
Proof.
  intros H1 Hx. induction l1 as [|y l1 IH]; simpl.
  - destruct (step x) as [t r]. simpl in Hx. by subst r.
  - destruct (step y) as [t r] eqn:Hy.
    assert (r = Done tt) as ->
      by (specialize (H1 y); rewrite Hy in H1; apply H1; left).
    rewrite IoFacts.bind_done, IH.
    + simpl. by rewrite app_assoc.
    + intros z Hz. apply H1. by right.
Qed.

(** The events of one pass of the outer loop: they come from a kept
    folder, and those that name a path name the artifact of the folder. *)
Lemma loop_body_events (v : visit) (e : event) :
  e ∈ (body v).1 →
  kept file_types ignore_folders v = true ∧
  match event_path e with
  | Some p => p = out_path (PosixPath.relpath (relative v))
  | None => ∃ line, e = Print line
  end.
Proof.
  intros He. unfold kept. destruct (ignored v) eqn:Hign.
  { rewrite loop_body_skipped in He by (by left). by apply elem_of_nil in He. }
  destruct (decide (matching v = [])) as [Hm|Hm].
  { rewrite loop_body_skipped in He by (by right). by apply elem_of_nil in He. }
  split; [by rewrite bool_decide_eq_false_2|].
  destruct (loop_body_kept isalnum w root_folder output_folder file_types
              ignore_folders v Hign Hm) as (t & r & _ & Hw & Hbody).
  rewrite Hbody in He. simpl in He.
  apply elem_of_cons in He as [->|He]; [done|].
  apply elem_of_app in He as [He|He].
  - rewrite Forall_forall in Hw. specialize (Hw _ He).
    destruct e; simpl in *; try done. by eexists.
  - apply elem_of_cons in He as [->|He]; [done|].
    destruct r; [|by apply elem_of_nil in He].
    apply list_elem_of_singleton in He as ->. simpl. by eexists.
Qed.

(** The events of a run. *)
Lemma run_events (e : event) :
  e ∈ (run).1 →
  (∃ line, e = Print line) ∨
  (e = Makedirs output_folder ∧ output_exists w = false ∧
   root_node w ≠ Missing) ∨
  (∃ v, v ∈ walk ∧ kept file_types ignore_folders v = true ∧
     event_path e = Some (out_path (PosixPath.relpath (relative v)))).
Proof.
  intros He.
  assert (root_node w = Missing ∨ root_node w ≠ Missing) as [Hroot|Hroot]
    by (destruct (root_node w); [by left|by right..]).
  { unfold combine_files_by_folder in He. rewrite Hroot in He.
    apply list_elem_of_singleton in He. left. by eexists. }
  destruct (run_trace isalnum w root_folder output_folder file_types
              ignore_folders Hroot) as [Htrace _].
  rewrite Htrace in He. apply elem_of_app in He as [He|He].
  { destruct (output_exists w) eqn:Hout; [by apply elem_of_nil in He|].
    apply list_elem_of_singleton in He. by right; left. }
  apply IoFacts.for_each_elem in He as (v & Hv & He).
  apply loop_body_events in He as [Hkept He].
  destruct (event_path e) as [p|] eqn:Hp; [|by left].
  right; right. exists v. by subst p.
Qed.

Lemma basename_join_name (top n : string) :
  PyStr.has_char PosixPath.sep n = false →
  PosixPath.basename (PosixPath.join top n) = n ∧
  (PosixPath.join top n = top +:+ n ∨ PosixPath.join top n = top +:+ "/" +:+ n).
Proof.
  intros Hsep.
  assert (PyStr.startswith n "/" = false) as Hst.
  { destruct n as [|c n]; [done|]. simpl in *.
    apply orb_false_iff in Hsep as [Hc _]. apply bool_decide_eq_false in Hc.
    by rewrite decide_False. }
  unfold PosixPath.join. rewrite Hst.
  destruct (bool_decide (top = "")) eqn:Htop; simpl.
  { apply bool_decide_eq_true in Htop as ->. rewrite PyStrFacts.app_nil_l.
    split; [by apply PosixPathFacts.basename_id|by left]. }
  destruct (PyStr.endswith top "/") eqn:Hend.
  - split; [|by left]. apply PyStrFacts.endswith_spec in Hend as [pre ->].
    rewrite PyStrFacts.app_assoc. by apply PosixPathFacts.basename_app_sep.
  - split; [|by right]. by apply PosixPathFacts.basename_app_sep.
Qed.

Lemma output_name_no_sep (rel : string) :
  isalnum PosixPath.sep = false →
  PyStr.has_char PosixPath.sep
    (output_filename isalnum root_folder rel +:+ ".txt") = false.
Proof.
  intros Hsep. rewrite PyStrFacts.has_char_app. apply orb_false_iff.
  split; [|done]. unfold output_filename. case_bool_decide.
  - apply PosixPathFacts.basename_no_sep.
  - rewrite !PyStrFacts.has_char_app, PosixPathFacts.basename_no_sep. simpl.
    apply all_chars_no_sep; [|apply sanitize_filename_all_safe].
    unfold safe_char. by rewrite Hsep.
Qed.

(** Under the pruning of the program a folder is reached when no name on
    the way to it is ignored. *)
Lemma os_walk_complete_pruned (d : dir) (p : list string) (d' : dir) :
  in_tree d p d' →
  Forall (λ n, should_ignore_folder n ignore_folders = false) p →
  ∀ top rel, ∃ v, v ∈ os_walk (prune ignore_folders) top rel d ∧
    relative v = rel ++ p ∧ filenames v = dir_files d'.
Proof.
  induction 1 as [[files subs]|files subs n sd p d' Hsub _ IH];
    intros Hp top rel.
  - eexists. split; [left|]. simpl. by rewrite app_nil_r.
  - apply Forall_cons in Hp as [Hn Hp].
    destruct (IH Hp (PosixPath.join top n) (rel ++ [n])) as (v & Hv & Hrel & Hf).
    exists v. split; [|by rewrite Hrel, <- app_assoc].
    simpl. right. apply list_elem_of_In, in_flat_map.
    exists (n, sd). split; [by apply list_elem_of_In|]. simpl.
    rewrite bool_decide_eq_true_2; [by apply list_elem_of_In|].
    unfold prune. apply list_elem_of_In, filter_In. split.
    + apply list_elem_of_In, list_elem_of_fmap. by exists (n, sd).
    + by rewrite Hn.
Qed.

(** Events that name no path, or another one, leave a path of the store
    as it is. *)
Lemma foldl_untouched (p : string) (t : list event) (m : gmap string string) :
  Forall (λ e, event_path e ≠ Some p) t →
  foldl apply_event m t !! p = m !! p.
Proof.
  intros Ht. revert m. induction Ht as [|e t He _ IH]; intros m; [done|].
  simpl. rewrite IH. destruct e; simpl in *; try done.
  - rewrite lookup_insert_ne; [done|]. congruence.
  - rewrite lookup_insert_ne; [done|]. congruence.
Qed.

Lemma loop_body_untouched (v : visit) (p : string) (m : gmap string string) :
  (kept file_types ignore_folders v = true →
   p ≠ out_path (PosixPath.relpath (relative v))) →
  foldl apply_event m (body v).1 !! p = m !! p.
Proof.
  intros Hp. apply foldl_untouched, Forall_forall. intros e He Heq.
  apply loop_body_events in He as [Hkept He]. rewrite Heq in He.
  by apply Hp.
Qed.

Lemma visits_untouched (l : list visit) (p : string) (m : gmap string string) :
  (∀ v, v ∈ l → kept file_types ignore_folders v = true →
     p ≠ out_path (PosixPath.relpath (relative v))) →
  foldl apply_event m (flat_map (λ v, (body v).1) l) !! p = m !! p.
Proof.
  revert m. induction l as [|v l IH]; intros m Hp; [done|]. simpl.
  rewrite foldl_app, IH by (intros u Hu; apply Hp; by right).
  apply loop_body_untouched, Hp. left.
Qed.

End MoreFacts.

(** ** [sanitize_filename] *)

(** X1: sanitizing is idempotent, and a sanitized name is made of
    alphanumeric characters, [-] and [_] only. *)
Theorem sanitize_filename_idempotent (isalnum : ascii → bool) (s : string) :
  sanitize_filename isalnum (sanitize_filename isalnum s)
  = sanitize_filename isalnum s ∧
  all_chars (safe_char isalnum) (sanitize_filename isalnum s) = true.
Proof.
  split; [|apply sanitize_filename_all_safe].
  apply sanitize_filename_fixed, sanitize_filename_all_safe.
Qed.

(** X2: [sanitize_filename] returns a name unchanged exactly when all its
    characters are alphanumeric, [-] or [_]; the length of the name is
    kept in any case. *)
Theorem sanitize_filename_identity_iff_safe (isalnum : ascii → bool)
    (s : string) :
  (sanitize_filename isalnum s = s ↔
   all_chars (safe_char isalnum) s = true) ∧
  String.length (sanitize_filename isalnum s) = String.length s.
Proof.
  split; [apply sanitize_filename_fixed|apply PyStrFacts.map_length].
Qed.

(** ** [should_ignore_folder] *)

(** X3: ignoring is closed under containment: when a name is ignored, so
    is every name that contains it. *)
Theorem should_ignore_folder_containing (folder_name pre post : string)
    (ignore_list : list string) :
  should_ignore_folder folder_name ignore_list = true →
  should_ignore_folder (pre +:+ folder_name +:+ post) ignore_list = true.
Proof.
  intros (token & Hin & a & b & ->)%should_ignore_folder_spec.
  apply should_ignore_folder_spec. exists token. split; [done|].
  exists (pre +:+ a), (b +:+ post). by rewrite !PyStrFacts.app_assoc.
Qed.

(** The token [temp] ignores [temp], hence [my_temp_dir] too. *)
Lemma should_ignore_folder_containing_witness :
  should_ignore_folder ("my_" +:+ "temp" +:+ "_dir") ["temp"] = true.
Proof.
  apply (should_ignore_folder_containing "temp" "my_" "_dir" ["temp"]).
  reflexivity.
Defined.

(** ** [combine_files_by_folder]: what is walked *)

(** X4: a folder of the tree is visited exactly when none of the names
    that lead to it from the root is ignored. *)
Theorem visited_iff_no_ignored_name (w : world) (root_folder : string)
    (ignore_folders : list string) (d : dir) (p : list string) :
  root_node w = Directory d →
  (∃ v, v ∈ visits w root_folder ignore_folders ∧ relative v = p) ↔
  (∃ d', in_tree d p d') ∧
  Forall (λ n, should_ignore_folder n ignore_folders = false) p.
Proof.
  intros Hroot. unfold visits. rewrite Hroot. split.
  - intros (v & Hv & <-).
    apply WalkFacts.os_walk_sound in Hv as (q & d' & -> & Htree & _ & Hq).
    rewrite app_nil_l. split; [by exists d'|].
    eapply Forall_impl; [exact Hq|]. intros n [names Hn].
    by apply prune_elem in Hn.
  - intros [[d' Htree] Hp].
    destruct (os_walk_complete_pruned ignore_folders d p d' Htree Hp
                root_folder []) as (v & Hv & Hrel & _).
    by exists v.
Qed.

(** In the demo tree [src/utils] is visited under the default list. *)
Lemma visited_iff_no_ignored_name_witness :
  ∃ v, v ∈ visits Demo.w "/p/proj" default_ignore ∧
    relative v = ["src"; "utils"].
Proof.
  apply (visited_iff_no_ignored_name Demo.w "/p/proj" default_ignore
           Demo.tree ["src"; "utils"]); [reflexivity|].
  split.
  - exists (Dir ["d.js"] []). unfold Demo.tree.
    eapply in_tree_sub; [left|].
    eapply in_tree_sub; [left|]. apply in_tree_here.
  - repeat constructor.
Defined.

(** X5: in a tree of valid names the check of the current folder's own
    name can stop the root only: every folder visited below the root
    passes it. *)
Theorem name_check_stops_only_the_root (w : world) (root_folder : string)
    (ignore_folders : list string) (d : dir) (v : visit) :
  root_node w = Directory d → valid_tree d = true →
  v ∈ visits w root_folder ignore_folders → relative v ≠ [] →
  should_ignore_folder (PosixPath.basename (current_folder v)) ignore_folders
  = false.
Proof. apply walk_not_ignored. Qed.

(** The folder [src/utils] of the demo tree passes the check. *)
Lemma name_check_stops_only_the_root_witness :
  should_ignore_folder
    (PosixPath.basename (current_folder Demo.utils_visit)) default_ignore
  = false.
Proof.
  apply (name_check_stops_only_the_root Demo.w "/p/proj" default_ignore
           Demo.tree Demo.utils_visit).
  - reflexivity.
  - reflexivity.
  - vm_compute. right. right. left.
  - discriminate.
Defined.

(** ** [combine_files_by_folder]: runs that combine nothing *)

(** X6: with the empty string among the ignore tokens every folder is
    ignored, the root included: the run creates the output folder when
    it is missing and nothing else. *)
Theorem empty_token_ignores_everything (isalnum : ascii → bool) (w : world)
    (root_folder output_folder : string)
    (file_types ignore_folders : list string) :
  "" ∈ ignore_folders → root_node w ≠ Missing →
  (∀ folder_name, should_ignore_folder folder_name ignore_folders = true) ∧
  combine_files_by_folder isalnum w root_folder output_folder file_types
    ignore_folders
  = (if output_exists w then [] else [Makedirs output_folder], Done tt).
Proof.
  intros Hempty Hroot.
  assert (∀ folder_name, should_ignore_folder folder_name ignore_folders = true)
    as Hall.
  { intros n. apply should_ignore_folder_spec. exists "". split; [done|].
    by exists "", n. }
  split; [done|]. apply run_all_skipped; [done|]. intros v _. by left.
Qed.

(** The demo tree with the ignore list [[""]]. *)
Lemma empty_token_ignores_everything_witness :
  combine_files_by_folder ascii_isalnum Demo.w "/p/proj" "/p/out" [".js"] [""]
  = ([Makedirs "/p/out"], Done tt).
Proof.
  apply (empty_token_ignores_everything ascii_isalnum Demo.w "/p/proj"
           "/p/out" [".js"] [""]).
  - left.
  - discriminate.
Defined.

(** X7: with an empty list of extensions no file matches: the run
    creates the output folder when it is missing and nothing else. *)
Theorem no_extension_no_artifact (isalnum : ascii → bool) (w : world)
    (root_folder output_folder : string) (ignore_folders : list string) :
  root_node w ≠ Missing →
  combine_files_by_folder isalnum w root_folder output_folder []
    ignore_folders
  = (if output_exists w then [] else [Makedirs output_folder], Done tt).
Proof.
  intros Hroot. apply run_all_skipped; [done|]. intros v _. right.
  apply matching_files_nil_types.
Qed.

(** The demo tree with no extension. *)
Lemma no_extension_no_artifact_witness :
  combine_files_by_folder ascii_isalnum Demo.w "/p/proj" "/p/out" []
    default_ignore
  = ([Makedirs "/p/out"], Done tt).
Proof.
  apply (no_extension_no_artifact ascii_isalnum Demo.w "/p/proj" "/p/out"
           default_ignore).
  discriminate.
Defined.

(** X8: when the root exists and is no directory, the walk yields
    nothing: the run reports no error, creates the output folder when it
    is missing, and writes no artifact. *)
Theorem root_file_combines_nothing (isalnum : ascii → bool) (w : world)
    (root_folder output_folder : string)
    (file_types ignore_folders : list string) :
  root_node w = NotADirectory →
  combine_files_by_folder isalnum w root_folder output_folder file_types
    ignore_folders
  = (if output_exists w then [] else [Makedirs output_folder], Done tt).
Proof.
  intros Hroot. apply run_all_skipped; [by rewrite Hroot|].
  intros v Hv. unfold visits in Hv. rewrite Hroot in Hv.
  by apply elem_of_nil in Hv.
Qed.

(** A root that is a file, with the output folder missing. *)
Lemma root_file_combines_nothing_witness :
  combine_files_by_folder ascii_isalnum
    (World NotADirectory false (λ _, Done "text") (λ p, p))
    "/p/file.js" "/p/out" [".js"] default_ignore
  = ([Makedirs "/p/out"], Done tt).
Proof.
  apply (root_file_combines_nothing ascii_isalnum
           (World NotADirectory false (λ _, Done "text") (λ p, p))
           "/p/file.js" "/p/out" [".js"] default_ignore).
  reflexivity.
Defined.

(** X9: the output folder is created exactly when the root exists and
    the output folder does not; it is then the first thing the run
    does, and the folder created is [output_folder]. *)
Theorem makedirs_iff_output_missing (isalnum : ascii → bool) (w : world)
    (root_folder output_folder : string)
    (file_types ignore_folders : list string) (path : string) :
  (Makedirs path
     ∈ (combine_files_by_folder isalnum w root_folder output_folder
          file_types ignore_folders).1
   ↔ root_node w ≠ Missing ∧ output_exists w = false ∧ path = output_folder) ∧
  (root_node w ≠ Missing → output_exists w = false →
   head (combine_files_by_folder isalnum w root_folder output_folder
           file_types ignore_folders).1
   = Some (Makedirs output_folder)).
Proof.
  split; [split|].
  - intros He. apply run_events in He as [[line He]|[He|(v & _ & _ & He)]];
      [done| |done].
    destruct He as ([= ->] & ? & ?). done.
  - intros (Hroot & Hout & ->).
    destruct (run_trace isalnum w root_folder output_folder file_types
                ignore_folders Hroot) as [-> _].
    rewrite Hout. left.
  - intros Hroot Hout.
    destruct (run_trace isalnum w root_folder output_folder file_types
                ignore_folders Hroot) as [-> _].
    by rewrite Hout.
Qed.

(** The demo run starts by creating [/p/out]. *)
Lemma makedirs_iff_output_missing_witness :
  head (combine_files_by_folder ascii_isalnum Demo.w "/p/proj" "/p/out"
          [".js"] default_ignore).1
  = Some (Makedirs "/p/out").
Proof.
  apply (makedirs_iff_output_missing ascii_isalnum Demo.w "/p/proj" "/p/out"
           [".js"] default_ignore "/p/out").
  - discriminate.
  - reflexivity.
Defined.

(** ** [combine_files_by_folder]: exceptions *)

(** X10: a run never ends on a decoding error: it ends normally or on an
    error the handler of the read does not catch. *)
Theorem run_never_raises_decode_error (isalnum : ascii → bool) (w : world)
    (root_folder output_folder : string)
    (file_types ignore_folders : list string) :
  (combine_files_by_folder isalnum w root_folder output_folder file_types
     ignore_folders).2 ≠ Raised UnicodeDecodeError ∧
  (∀ c, (main isalnum w c).2 ≠ Raised UnicodeDecodeError).
Proof.
  assert (∀ root out types ign,
            (combine_files_by_folder isalnum w root out types ign).2
            ≠ Raised UnicodeDecodeError) as Hrun.
  { intros root out types ign.
    assert (root_node w = Missing ∨ root_node w ≠ Missing) as [Hroot|Hroot]
      by (destruct (root_node w); [by left|by right..]).
    - unfold combine_files_by_folder. by rewrite Hroot.
    - destruct (run_trace isalnum w root out types ign Hroot) as [_ ->].
      apply for_each_outcome. intros v _. apply loop_body_outcome. }
  split; [apply Hrun|]. intros c.
  unfold main, print, emit. rewrite !IoFacts.bind_done. simpl. apply Hrun.
Qed.

(** X11: when a matching file cannot be opened, the folder stops there:
    the entries of the files before it are written, then the header of
    the file, the artifact is closed, no summary is printed and the
    error leaves the loop body. *)
Theorem unreadable_file_stops_the_folder (isalnum : ascii → bool) (w : world)
    (root_folder output_folder : string)
    (file_types ignore_folders : list string) (v : visit)
    (before after : list string) (f : string) :
  should_ignore_folder (PosixPath.basename (current_folder v)) ignore_folders
  = false →
  matching_files file_types (filenames v) = before ++ f :: after →
  (∀ g, g ∈ before →
     read_text w (PosixPath.join (current_folder v) g) ≠ Raised OSError) →
  read_text w (PosixPath.join (current_folder v) f) = Raised OSError →
  ∃ out, out = output_file_path isalnum root_folder output_folder
                 (PosixPath.relpath (relative v)) ∧
    loop_body isalnum w root_folder output_folder file_types ignore_folders v
    = (Open out ::
       flat_map (λ g, (copy_file w out v g).1) before ++
       [Write out (separator v f +:+ LF +:+ LF); Close out],
       Raised OSError).
Proof.
  intros Hign Hm Hbefore Hf. eexists. split; [done|].
  set (out := output_file_path _ _ _ _).
  unfold loop_body. rewrite Hign.
  rewrite bool_decide_eq_false_2 by (rewrite Hm; by destruct before).
  fold out. rewrite Hm.
  rewrite (for_each_raised before after f (copy_file w out v) OSError).
  - rewrite (copy_file_cases w out v f), Hf. simpl.
    by rewrite <- app_assoc.
  - intros g Hg. by apply copy_file_done, Hbefore.
  - by rewrite copy_file_cases, Hf.
Qed.

(** In the folder of [Abort] the file [b.js] cannot be opened. *)
Lemma unreadable_file_stops_the_folder_witness :
  (loop_body ascii_isalnum Abort.w "/p/proj" "/out" [".js"] default_ignore
     Abort.root_visit).2
  = Raised OSError.
Proof.
  destruct (unreadable_file_stops_the_folder ascii_isalnum Abort.w "/p/proj"
              "/out" [".js"] default_ignore Abort.root_visit
              ["a.js"] ["c.js"] "b.js") as (out & _ & ->).
  - reflexivity.
  - reflexivity.
  - intros g Hg. apply list_elem_of_singleton in Hg as ->. discriminate.
  - reflexivity.
  - reflexivity.
Defined.

(** X12: when the body of a folder raises, the run stops there with the
    same error: the folders visited before have left their events, the
    folders that would follow leave none. *)
Theorem error_stops_the_run (isalnum : ascii → bool) (w : world)
    (root_folder output_folder : string)
    (file_types ignore_folders : list string)
    (before after : list visit) (v : visit) (e : exn) :
  visits w root_folder ignore_folders = before ++ v :: after →
  (∀ u, u ∈ before →
     (loop_body isalnum w root_folder output_folder file_types
        ignore_folders u).2 = Done tt) →
  (loop_body isalnum w root_folder output_folder file_types ignore_folders
     v).2 = Raised e →
  combine_files_by_folder isalnum w root_folder output_folder file_types
    ignore_folders
  = ((if output_exists w then [] else [Makedirs output_folder]) ++
     flat_map
       (λ u, (loop_body isalnum w root_folder output_folder file_types
                ignore_folders u).1) before ++
     (loop_body isalnum w root_folder output_folder file_types
        ignore_folders v).1,
     Raised e).
Proof.
  intros Hvisits Hbefore Hv.
  assert (root_node w ≠ Missing) as Hroot.
  { intros Hroot. unfold visits in Hvisits. rewrite Hroot in Hvisits.
    by destruct before. }
  destruct (run_trace isalnum w root_folder output_folder file_types
              ignore_folders Hroot) as [Htrace Hres].
  rewrite Hvisits, (for_each_raised before after v _ e Hbefore Hv)
    in Htrace, Hres.
  destruct (combine_files_by_folder _ _ _ _ _ _) as [t r].
  simpl in *. by subst.
Qed.

(** The run of [Abort] stops in the root; [src] leaves no event. *)
Lemma error_stops_the_run_witness :
  Abort.run
  = ([Open "/out/proj.txt";
      Write "/out/proj.txt" ("# ===== a.js =====" +:+ LF +:+ LF);
      Write "/out/proj.txt" "text";
      Write "/out/proj.txt" (LF +:+ LF);
      Write "/out/proj.txt" ("# ===== b.js =====" +:+ LF +:+ LF);
      Close "/out/proj.txt"],
     Raised OSError).
Proof.
  unfold Abort.run.
  rewrite (error_stops_the_run ascii_isalnum Abort.w "/p/proj" "/out" [".js"]
             default_ignore [] [Visit "/p/proj/src" ["src"] [] ["d.js"]]
             Abort.root_visit OSError).
  - reflexivity.
  - reflexivity.
  - intros u Hu. by apply elem_of_nil in Hu.
  - reflexivity.
Defined.

(** ** [combine_files_by_folder]: where it writes *)

(** X13: every file the run opens, writes or closes is an immediate
    entry of the output folder: its path is the output folder joined
    with a name that holds no separator.  A separator is no alphanumeric
    character. *)
Theorem run_writes_inside_output_folder (isalnum : ascii → bool) (w : world)
    (root_folder output_folder : string)
    (file_types ignore_folders : list string) (e : event) (path : string) :
  isalnum PosixPath.sep = false →
  e ∈ (combine_files_by_folder isalnum w root_folder output_folder
         file_types ignore_folders).1 →
  event_path e = Some path →
  ∃ name, PyStr.has_char PosixPath.sep name = false ∧
    path = PosixPath.join output_folder name ∧
    PosixPath.basename path = name ∧
    (path = output_folder +:+ name ∨ path = output_folder +:+ "/" +:+ name).
Proof.
  intros Hsep He Hpath.
  apply run_events in He as [[line ->]|[[-> _]|(v & _ & _ & He)]];
    [done..|].
  rewrite Hpath in He. injection He as ->.
  exists (output_filename isalnum root_folder (PosixPath.relpath (relative v))
          +:+ ".txt").
  pose proof (output_name_no_sep isalnum root_folder
                (PosixPath.relpath (relative v)) Hsep) as Hname.
  split; [done|]. split; [done|]. by apply basename_join_name.
Qed.

(** The artifact of the demo root is [proj.txt] in [/p/out]. *)
Lemma run_writes_inside_output_folder_witness :
  ∃ name, PyStr.has_char PosixPath.sep name = false ∧
    "/p/out/proj.txt" = PosixPath.join "/p/out" name ∧
    PosixPath.basename "/p/out/proj.txt" = name ∧
    ("/p/out/proj.txt" = "/p/out" +:+ name ∨
     "/p/out/proj.txt" = "/p/out" +:+ "/" +:+ name).
Proof.
  apply (run_writes_inside_output_folder ascii_isalnum Demo.w "/p/proj"
           "/p/out" [".js"] default_ignore (Open "/p/out/proj.txt")).
  - reflexivity.
  - vm_compute. right. left.
  - reflexivity.
Defined.

(** X14: after a run in which every read gives text or a decoding error,
    the artifact of a kept folder holds the entries of its matching
    files and nothing else, provided no folder kept later in the walk
    has the same artifact path. *)
Theorem final_artifact_of_kept_folder (isalnum : ascii → bool) (w : world)
    (root_folder output_folder : string)
    (file_types ignore_folders : list string)
    (before after : list visit) (v : visit) :
  (∀ p, read_text w p ≠ Raised OSError) →
  visits w root_folder ignore_folders = before ++ v :: after →
  kept file_types ignore_folders v = true →
  (∀ u, u ∈ after → kept file_types ignore_folders u = true →
     output_file_path isalnum root_folder output_folder
       (PosixPath.relpath (relative v))
     ≠ output_file_path isalnum root_folder output_folder
         (PosixPath.relpath (relative u))) →
  artifacts
    (combine_files_by_folder isalnum w root_folder output_folder file_types
       ignore_folders).1
    !! output_file_path isalnum root_folder output_folder
         (PosixPath.relpath (relative v))
  = Some (spec_artifact w file_types v).
Proof.
  intros Hread Hvisits Hkept Hlater.
  assert (root_node w ≠ Missing) as Hroot.
  { intros Hroot. unfold visits in Hvisits. rewrite Hroot in Hvisits.
    by destruct before. }
  destruct (run_trace isalnum w root_folder output_folder file_types
              ignore_folders Hroot) as [-> _].
  rewrite IoFacts.for_each_done by (intros u _; by apply loop_body_done).
  simpl. rewrite Hvisits, flat_map_app. simpl.
  unfold artifacts. rewrite !foldl_app.
  rewrite visits_untouched by done.
  unfold kept in Hkept.
  apply andb_true_iff in Hkept as [Hign Hm].
  apply negb_true_iff in Hign. apply negb_true_iff, bool_decide_eq_false in Hm.
  by apply loop_body_overwrites.
Qed.

(** The artifact of [src] after the demo run. *)
Lemma final_artifact_of_kept_folder_witness :
  artifacts
    (combine_files_by_folder ascii_isalnum Demo.w "/p/proj" "/p/out" [".js"]
       default_ignore).1 !! "/p/out/proj_src.txt"
  = Some ("# ===== src/b.js =====" +:+ LF +:+ LF +:+ "B" +:+ LF +:+ LF).
Proof.
  pose proof (final_artifact_of_kept_folder ascii_isalnum Demo.w "/p/proj"
                "/p/out" [".js"] default_ignore
                [Demo.root_visit]
                [Demo.utils_visit; Visit "/p/proj/docs" ["docs"] [] ["readme.md"]]
                (Visit "/p/proj/src" ["src"] ["utils"] ["b.js"; "c.bin"]))
    as Hfinal.
  change (output_file_path ascii_isalnum "/p/proj" "/p/out"
            (PosixPath.relpath
               (relative (Visit "/p/proj/src" ["src"] ["utils"]
                            ["b.js"; "c.bin"]))))
    with "/p/out/proj_src.txt" in Hfinal.
  rewrite Hfinal.
  - reflexivity.
  - intros p. simpl. unfold Demo.reads. repeat case_bool_decide; discriminate.
  - reflexivity.
  - reflexivity.
  - intros u Hu _. apply elem_of_cons in Hu as [->|Hu]; [discriminate|].
    apply list_elem_of_singleton in Hu as ->. discriminate.
Defined.

(** X15: a run leaves no file but the artifacts of the folders it keeps:
    a path that is the artifact path of no kept folder of the walk is
    not among the artifacts. *)
Theorem run_creates_no_other_file (isalnum : ascii → bool) (w : world)
    (root_folder output_folder : string)
    (file_types ignore_folders : list string) (path : string) :
  (∀ v, v ∈ visits w root_folder ignore_folders →
     kept file_types ignore_folders v = true →
     path ≠ output_file_path isalnum root_folder output_folder
              (PosixPath.relpath (relative v))) →
  artifacts
    (combine_files_by_folder isalnum w root_folder output_folder file_types
       ignore_folders).1 !! path = None.
Proof.
  intros Hpath. unfold artifacts. rewrite foldl_untouched; [done|].
  apply Forall_forall. intros e He Heq.
  apply run_events in He as [[line ->]|[[-> _]|(v & Hv & Hkept & He)]];
    [done..|].
  rewrite Heq in He. injection He as ->. by apply (Hpath v).
Qed.

(** The demo run leaves nothing at [/p/out/proj_docs.txt]: [docs] has no
    matching file. *)
Lemma run_creates_no_other_file_witness :
  artifacts
    (combine_files_by_folder ascii_isalnum Demo.w "/p/proj" "/p/out" [".js"]
       default_ignore).1 !! "/p/out/proj_docs.txt" = None.
Proof.
  apply (run_creates_no_other_file ascii_isalnum Demo.w "/p/proj" "/p/out"
           [".js"] default_ignore "/p/out/proj_docs.txt").
  intros v Hv Hkept. vm_compute in Hv.
  repeat (apply elem_of_cons in Hv as [->|Hv]; [discriminate|]).
  by apply elem_of_nil in Hv.
Defined.

Lemma replace_no_sep (s : string) :
  PyStr.has_char PosixPath.sep s = false →
  PyStr.replace PosixPath.sep "_"%char s = s.
Proof.
  unfold PyStr.replace. induction s as [|c s IH]; [done|]. simpl.
  intros [Hc Hs]%orb_false_iff. apply bool_decide_eq_false in Hc.
  by rewrite decide_False, IH.
Qed.

(** X16: two folders right below the root whose names differ and are
    made of alphanumeric characters, [-] and [_] only have different
    artifact paths.  A separator is no alphanumeric character. *)
Theorem safe_names_do_not_collide (isalnum : ascii → bool)
    (root_folder output_folder : string) (v1 v2 : visit) (n1 n2 : string) :
  isalnum PosixPath.sep = false →
  relative v1 = [n1] → relative v2 = [n2] →
  all_chars (safe_char isalnum) n1 = true →
  all_chars (safe_char isalnum) n2 = true →
  n1 ≠ "." → n2 ≠ "." → n1 ≠ n2 →
  output_file_path isalnum root_folder output_folder
    (PosixPath.relpath (relative v1))
  ≠ output_file_path isalnum root_folder output_folder
      (PosixPath.relpath (relative v2)).
Proof.
  intros Hsep -> -> Hs1 Hs2 Hd1 Hd2 Hne Heq. simpl in Heq.
  apply out_path_eq in Heq as [[? _]|(_ & _ & Heq)]; [done|].
  assert (safe_char isalnum PosixPath.sep = false) as Hsafe
    by (unfold safe_char; by rewrite Hsep).
  rewrite !replace_no_sep in Heq by by apply (all_chars_no_sep isalnum).
  apply Hne.
  by rewrite <- (proj2 (sanitize_filename_fixed isalnum n1) Hs1),
             <- (proj2 (sanitize_filename_fixed isalnum n2) Hs2).
Qed.

(** The folders [src] and [docs] of the demo tree. *)
Lemma safe_names_do_not_collide_witness :
  output_file_path ascii_isalnum "/p/proj" "/p/out"
    (PosixPath.relpath (relative (Visit "/p/proj/src" ["src"] ["utils"]
                                    ["b.js"; "c.bin"])))
  ≠ output_file_path ascii_isalnum "/p/proj" "/p/out"
      (PosixPath.relpath (relative (Visit "/p/proj/docs" ["docs"] []
                                      ["readme.md"]))).
Proof.
  apply (safe_names_do_not_collide ascii_isalnum "/p/proj" "/p/out"
           (Visit "/p/proj/src" ["src"] ["utils"] ["b.js"; "c.bin"])
           (Visit "/p/proj/docs" ["docs"] [] ["readme.md"]) "src" "docs");
    try reflexivity; discriminate.
Defined.

(** ** [main] *)



